(** * sql/ndb_ndbapi_util.cc: helpers over the NDB dictionary API

    A shallow embedding of the functions of [sql/ndb_ndbapi_util.cc] and the
    properties its specification states about them.

    - Functions that read a table definition ([ndb_pack_varchar],
      [ndb_table_has_blobs], [ndb_table_has_hidden_pk]) run in the [outcome]
      monad: besides a value they can end in one of the ways a C++ program
      leaves its defined behaviour (a member read through a null pointer, a
      failed [assert], a write past the end of an array).
    - Functions that talk to the dictionary ([ndb_table_tablespace_name],
      [ndb_get_*_names]) thread the [Dictionary.t] handle through a state
      monad; the handle records the last error and the requests issued.
    - The NdbApi classes ([NdbDictionary::Column], [::Table], [::Dictionary],
      ...) are not part of this file's sources; they appear as records of
      the getters the code calls. *)

From Stdlib Require Import ZArith NArith Lia Bool.
From Stdlib Require Import Strings.Byte.
From stdpp Require Import base decidable option list gmap sets strings.

Local Open Scope Z_scope.

(** ** Outcomes of code that may leave defined behaviour *)

Inductive outcome (A : Type) : Type :=
| Ok (a : A)
| NullDeref       (* a member was read through a null pointer *)
| AssertFailed    (* assert() aborted the program *)
| BufferOverrun.  (* memcpy or a store went past the end of an array *)

Arguments Ok {A} a.
Arguments NullDeref {A}.
Arguments AssertFailed {A}.
Arguments BufferOverrun {A}.

#[global] Instance outcome_ret : MRet outcome := fun A a => Ok a.

#[global] Instance outcome_bind : MBind outcome := fun A B k m =>
  match m with
  | Ok a => k a
  | NullDeref => NullDeref
  | AssertFailed => AssertFailed
  | BufferOverrun => BufferOverrun
  end.

(** [p->member] on a pointer [p] that may be null. *)
Definition deref {A : Type} (p : option A) : outcome A :=
  match p with
  | Some a => Ok a
  | None => NullDeref
  end.

Definition member {A B : Type} (p : option A) (get : A → B) : outcome B :=
  a ← deref p; Ok (get a).

(** [a && b] of C++: [b] is evaluated only when [a] is true. *)
Definition and_then (a b : outcome bool) : outcome bool :=
  x ← a; if (x : bool) then b else Ok false.

Infix "&&&" := and_then (at level 40, left associativity).

(** [assert(cond)]: compiled out under [NDEBUG], aborts otherwise when the
    condition is false. The condition is not evaluated under [NDEBUG]. *)
Definition assert (NDEBUG : bool) (cond : outcome bool) : outcome unit :=
  if NDEBUG then Ok tt
  else c ← cond; if (c : bool) then Ok tt else AssertFailed.

(** ** Bytes, casts and the two memory primitives of the packer *)

(** [(uchar)n]: the truncating cast to one byte. *)
Definition uchar (n : N) : byte :=
  default x00 (Byte.of_N (n mod 256)%N).

(** [(uint16)n]. *)
Definition uint16 (n : N) : N := (n mod 65536)%N.

(** [static_cast<int>(u)] of a 32-bit unsigned. *)
Definition static_cast_int (u : Z) : Z :=
  if bool_decide (u < 2 ^ 31) then u else u - 2 ^ 32.

(** [buf[off] = b] on an array; a store past the end is undefined. *)
Definition store (buf : list byte) (off : nat) (b : byte) : outcome (list byte) :=
  if bool_decide (off < length buf)%nat then Ok (<[off := b]> buf)
  else BufferOverrun.

(** [memcpy(dst + off, src, n)]: the first [n] bytes of [src] replace
    [dst[off .. off+n)]; reading or writing past either array is undefined. *)
Definition memcpy (dst : list byte) (off : nat) (src : list byte) (n : N)
  : outcome (list byte) :=
  let n := N.to_nat n in
  if bool_decide (off + n ≤ length dst ∧ n ≤ length src)%nat
  then Ok (take off dst ++ take n src ++ drop (off + n) dst)
  else BufferOverrun.

(** Modelled from the spec: [int2store] of [my_byteorder.h], which is not
    among the sources. The spec calls the prefix it writes "a 2-byte
    little-endian length prefix": the low byte goes first. *)
Definition int2store (T : list byte) (A : N) : outcome (list byte) :=
  T ← store T 0 (uchar (N.land A 255));
  store T 1 (uchar (N.shiftr A 8)).

(** Reading back what [int2store] wrote ([uint2korr]). *)
Definition uint2korr (b0 b1 : byte) : N :=
  (Byte.to_N b0 + 256 * Byte.to_N b1)%N.

(** ** The NdbApi dictionary objects, as far as this file reads them *)

Module NdbDictionary.

Module Column.

(** [NdbDictionary::Column::Type]. *)
Inductive Type_ : Set :=
| Undefined | Tinyint | Tinyunsigned | Smallint | Smallunsigned
| Mediumint | Mediumunsigned | Int | Unsigned | Bigint | Bigunsigned
| Float | Double | Olddecimal | Olddecimalunsigned | Decimal
| Decimalunsigned | Char | Varchar | Binary | Varbinary | Datetime
| Date | Blob | Text | Bit | Longvarchar | Longvarbinary | Time_
| Year | Timestamp | Time2 | Datetime2 | Timestamp2.

(** [NdbDictionary::Column::ArrayType]. A C++ enum object can hold a
    value that is none of its enumerators; [ArrayTypeOther] stands for
    those, which the [switch] of the packer has no case for. *)
Inductive ArrayType : Set :=
| ArrayTypeFixed
| ArrayTypeShortVar
| ArrayTypeMediumVar
| ArrayTypeOther (v : Z).

Record t : Type := {
  getName : string;
  getType : Type_;
  getLength : Z;                          (* int *)
  getArrayType : ArrayType;
  getNullable : bool;
  getPrimaryKey : bool;
  getAutoIncrement : bool;
  getDefaultValue : option (list byte);   (* const void*, nullptr = None *)
}.

End Column.

(** What [getExtraMetadata(version, &data, &length)] hands back: its
    return code and the three out-parameters. *)
Record ExtraMetadata : Type := {
  get_result : Z;                 (* int, 0 on success *)
  version : Z;                    (* Uint32 *)
  unpacked_data : list byte;
  unpacked_length : Z;
}.

Module Table.

Record t : Type := {
  getNoOfColumns : Z;
  getColumn : Z → option Column.t;             (* getColumn(int) *)
  getColumnByName : string → option Column.t;  (* getColumn(const char* ) *)
  getNoOfPrimaryKeys : Z;
  getTablespaceName : string;
  getTablespace : option Z;   (* Some id when getTablespace(&id) is true *)
  getExtraMetadata : ExtraMetadata;
}.

End Table.

(** [NdbDictionary::Object]: the kinds of object this file lists, and the
    life-cycle states of a listed object. *)
Module Object.

Inductive Type_ : Set :=
| UserTable | Tablespace | LogfileGroup | Datafile | Undofile.

Inductive State : Set :=
| StateUndefined
| StateOffline
| StateBuilding
| StateDropping
| StateOnline
| ObsoleteStateBackup
| StateBroken.

End Object.

Module Tablespace.
Record t : Type := { getName : string }.
End Tablespace.

Module Undofile.
Record t : Type := { getLogfileGroup : string }.
End Undofile.

Module Datafile.
Record t : Type := { getTablespace : string }.
End Datafile.

Record NdbError : Type := { code : Z }.

Module Dictionary.

(** [NdbDictionary::Dictionary::List::Element]. *)
Record Element : Type := {
  name : string;
  database : string;
  state : Object.State;
}.

(** The requests the code can send to the dictionary. *)
Inductive Request : Type :=
| ListObjects (type : Object.Type_)
| GetTablespace (id : Z)
| GetUndofile (node : Z) (path : string)
| GetDatafile (node : Z) (path : string).

(** An answer of the dictionary, with the error it leaves in the handle. *)
Record Reply (A : Type) : Type := {
  value : A;
  error : NdbError;
}.
Arguments value {A} _.
Arguments error {A} _.

(** The data nodes behind the handle: a black box that answers requests.
    [listObjects] answers with its return code (0 on success) and the
    listing. *)
Record Service : Type := {
  on_listObjects : Object.Type_ → Reply (Z * list Element);
  on_getTablespace : Z → Reply Tablespace.t;
  on_getUndofile : Z → string → Reply Undofile.t;
  on_getDatafile : Z → string → Reply Datafile.t;
}.

(** The handle [NdbDictionary::Dictionary*]: the service it is connected
    to, the error of the last request, and the requests sent so far. *)
Record t : Type := {
  service : Service;
  m_error : NdbError;
  requests : list Request;
}.

(** Code that uses the handle. *)
Definition M (A : Type) : Type := t → A * t.

Definition ret {A : Type} (a : A) : M A := fun dict => (a, dict).

Definition bind {A B : Type} (m : M A) (k : A → M B) : M B :=
  fun dict => let '(a, dict') := m dict in k a dict'.

Definition request {A : Type} (req : Request) (answer : Service → Reply A)
  : M A :=
  fun dict =>
    let reply := answer (service dict) in
    (value reply,
     {| service := service dict;
        m_error := error reply;
        requests := requests dict ++ [req] |}).

Definition listObjects (type : Object.Type_) : M (Z * list Element) :=
  request (ListObjects type) (fun s => on_listObjects s type).

Definition getTablespace (id : Z) : M Tablespace.t :=
  request (GetTablespace id) (fun s => on_getTablespace s id).

Definition getUndofile (node : Z) (path : string) : M Undofile.t :=
  request (GetUndofile node path) (fun s => on_getUndofile s node path).

Definition getDatafile (node : Z) (path : string) : M Datafile.t :=
  request (GetDatafile node path) (fun s => on_getDatafile s node path).

Definition getNdbError : M NdbError := fun dict => (m_error dict, dict).

End Dictionary.

End NdbDictionary.

Import NdbDictionary.

#[global] Instance Column_Type_eq_dec : EqDecision Column.Type_.
Proof. solve_decision. Defined.

#[global] Instance Object_State_eq_dec : EqDecision Object.State.
Proof. solve_decision. Defined.

#[global] Instance Dictionary_ret : MRet Dictionary.M := @Dictionary.ret.

#[global] Instance Dictionary_bind : MBind Dictionary.M :=
  fun A B k m => Dictionary.bind m k.

(** ** ndb_pack_varchar *)

(** [sizeof(buf)] for [char (&buf)[512]]. *)
Definition sizeof_buf : Z := 512.

Definition ndb_pack_varchar (NDEBUG : bool) (ndbtab : Table.t)
    (column_index : Z) (buf : list byte) (str : list byte) (sz : N)
  : outcome (list byte) :=
  let col := Table.getColumn ndbtab (static_cast_int column_index) in
  _ ← assert NDEBUG
        (len ← member col Column.getLength; Ok (bool_decide (len ≤ sizeof_buf)));
  kind ← member col Column.getArrayType;
  match kind with
  | Column.ArrayTypeFixed =>
      memcpy buf 0 str sz
  | Column.ArrayTypeShortVar =>
      buf ← store buf 0 (uchar sz);
      memcpy buf 1 str sz
  | Column.ArrayTypeMediumVar =>
      buf ← int2store buf (uint16 sz);
      memcpy buf 2 str sz
  | Column.ArrayTypeOther _ =>
      Ok buf
  end.

(** ** ndb_get_extra_metadata_version *)

(** The unpacked data is freed and only the version is returned; [free] has
    no counterpart here. *)
Definition ndb_get_extra_metadata_version (ndbtab : Table.t) : Z :=
  let r := Table.getExtraMetadata ndbtab in
  if bool_decide (get_result r ≠ 0) then
    (* Could not get extra metadata, return 0 *)
    0
  else version r.

(** ** ndb_table_has_blobs *)

Fixpoint has_blobs_loop (ndbtab : Table.t) (indexes : list Z) : outcome bool :=
  match indexes with
  | [] => Ok false
  | i :: indexes =>
      column_type ← member (Table.getColumn ndbtab i) Column.getType;
      if bool_decide (column_type = Column.Blob)
         || bool_decide (column_type = Column.Text)
      then Ok true
      else has_blobs_loop ndbtab indexes
  end.

Definition ndb_table_has_blobs (ndbtab : Table.t) : outcome bool :=
  let num_columns := Table.getNoOfColumns ndbtab in
  has_blobs_loop ndbtab (seqZ 0 num_columns).

(** ** ndb_table_has_hidden_pk *)

Definition hidden_pk_name : string := "$PK".

Definition ndb_table_has_hidden_pk (ndbtab : Table.t) : outcome bool :=
  if bool_decide (Table.getNoOfPrimaryKeys ndbtab = 1) then
    let ndbcol := Table.getColumnByName ndbtab hidden_pk_name in
    cond ←
      Ok (bool_decide (is_Some ndbcol))
      &&& (x ← member ndbcol Column.getType;
           Ok (bool_decide (x = Column.Bigunsigned)))
      &&& (x ← member ndbcol Column.getLength; Ok (bool_decide (x = 1)))
      &&& (x ← member ndbcol Column.getNullable; Ok (bool_decide (x = false)))
      &&& (x ← member ndbcol Column.getPrimaryKey; Ok (bool_decide (x = true)))
      &&& (x ← member ndbcol Column.getAutoIncrement;
           Ok (bool_decide (x = true)))
      &&& (x ← member ndbcol Column.getDefaultValue;
           Ok (bool_decide (x = None)));
    if (cond : bool) then Ok true else Ok false
  else Ok false.

(** ** Tablespace of a table *)

(** [const char* ndb_table_tablespace_name(ndbtab)]; [nullptr] is [None]. *)
Definition ndb_table_tablespace_name (ndbtab : Table.t) : option string :=
  let tablespace_name := Table.getTablespaceName ndbtab in
  if bool_decide (String.length tablespace_name = 0%nat) then None
  else Some tablespace_name.

Definition ndb_table_has_tablespace (ndbtab : Table.t) : bool :=
  if bool_decide (ndb_table_tablespace_name ndbtab ≠ None) then true
  else if bool_decide (is_Some (Table.getTablespace ndbtab)) then true
  else false.

Definition ndb_dict_check_NDB_error : Dictionary.M bool :=
  err ← Dictionary.getNdbError;
  mret (bool_decide (code err ≠ 0)).

(** [std::string ndb_table_tablespace_name(dict, ndbtab)]. *)
Definition ndb_table_tablespace_name_dict (ndbtab : Table.t)
  : Dictionary.M string :=
  let tablespace_name := Table.getTablespaceName ndbtab in
  if bool_decide (tablespace_name = "") then
    match Table.getTablespace ndbtab with
    | Some tablespace_id =>
        ts ← Dictionary.getTablespace tablespace_id;
        failed ← ndb_dict_check_NDB_error;
        if negb failed then mret (Tablespace.getName ts)
        else mret tablespace_name
    | None => mret tablespace_name
    end
  else mret tablespace_name.

(** ** Listing queries

    Each query fills a collection the caller passes by reference: the
    collection is an argument and comes back beside the [bool] result. A
    [std::unordered_set<std::string>] is a [gset string], a
    [std::vector<std::string>] a [list string]. The loops over
    [list.elements[0 .. count)] are folds over the listing.

    The three predicates of [sql/ndb_name_util.h] are not among the sources;
    the queries are parameterised by them. *)

Section listing_queries.

Variables ndb_name_is_temp ndb_name_is_blob_prefix ndb_name_is_index_stat
  : string → bool.

Definition ndb_get_logfile_group_names (lfg_names : gset string)
  : Dictionary.M (bool * gset string) :=
  '(res, lfg_list) ← Dictionary.listObjects Object.LogfileGroup;
  if bool_decide (res ≠ 0) then mret (false, lfg_names)
  else
    mret (true,
          foldl (fun lfg_names elmt => lfg_names ∪ {[Dictionary.name elmt]})
                lfg_names lfg_list).

Definition ndb_get_tablespace_names (tablespace_names : gset string)
  : Dictionary.M (bool * gset string) :=
  '(res, tablespace_list) ← Dictionary.listObjects Object.Tablespace;
  if bool_decide (res ≠ 0) then mret (false, tablespace_names)
  else
    mret (true,
          foldl (fun tablespace_names elmt =>
                   tablespace_names ∪ {[Dictionary.name elmt]})
                tablespace_names tablespace_list).

(** One round of the loop of [ndb_get_table_names_in_schema]. *)
Definition table_names_in_schema_step (schema_name : string)
    (table_names : gset string) (elmt : Dictionary.Element) : gset string :=
  if bool_decide (schema_name ≠ Dictionary.database elmt) then
    table_names                                             (* continue *)
  else if ndb_name_is_temp (Dictionary.name elmt)
          || ndb_name_is_blob_prefix (Dictionary.name elmt)
          || ndb_name_is_index_stat (Dictionary.name elmt) then
    table_names                                             (* continue *)
  else if bool_decide (Dictionary.state elmt = Object.StateOnline)
          || bool_decide (Dictionary.state elmt = Object.ObsoleteStateBackup)
          || bool_decide (Dictionary.state elmt = Object.StateBuilding) then
    table_names ∪ {[Dictionary.name elmt]}
  else table_names.

Definition ndb_get_table_names_in_schema (schema_name : string)
    (table_names : gset string) : Dictionary.M (bool * gset string) :=
  '(res, list) ← Dictionary.listObjects Object.UserTable;
  if bool_decide (res ≠ 0) then mret (false, table_names)
  else
    mret (true, foldl (table_names_in_schema_step schema_name) table_names list).

(** The loop of [ndb_get_undofile_names]: one [getUndofile] request per
    listed undofile. *)
Fixpoint undofile_names_loop (logfile_group_name : string)
    (elements : list Dictionary.Element) (undofile_names : list string)
  : Dictionary.M (list string) :=
  match elements with
  | [] => mret undofile_names
  | elmt :: elements =>
      uf ← Dictionary.getUndofile (-1) (Dictionary.name elmt);
      undofile_names_loop logfile_group_name elements
        (if bool_decide
              (String.compare logfile_group_name (Undofile.getLogfileGroup uf)
               = Eq)
         then undofile_names ++ [Dictionary.name elmt]        (* push_back *)
         else undofile_names)
  end.

Definition ndb_get_undofile_names (logfile_group_name : string)
    (undofile_names : list string) : Dictionary.M (bool * list string) :=
  '(res, undofile_list) ← Dictionary.listObjects Object.Undofile;
  if bool_decide (res ≠ 0) then mret (false, undofile_names)
  else
    undofile_names ←
      undofile_names_loop logfile_group_name undofile_list undofile_names;
    mret (true, undofile_names).

Fixpoint datafile_names_loop (tablespace_name : string)
    (elements : list Dictionary.Element) (datafile_names : list string)
  : Dictionary.M (list string) :=
  match elements with
  | [] => mret datafile_names
  | elmt :: elements =>
      df ← Dictionary.getDatafile (-1) (Dictionary.name elmt);
      datafile_names_loop tablespace_name elements
        (if bool_decide
              (String.compare tablespace_name (Datafile.getTablespace df) = Eq)
         then datafile_names ++ [Dictionary.name elmt]        (* push_back *)
         else datafile_names)
  end.

Definition ndb_get_datafile_names (tablespace_name : string)
    (datafile_names : list string) : Dictionary.M (bool * list string) :=
  '(res, datafile_list) ← Dictionary.listObjects Object.Datafile;
  if bool_decide (res ≠ 0) then mret (false, datafile_names)
  else
    datafile_names ←
      datafile_names_loop tablespace_name datafile_list datafile_names;
    mret (true, datafile_names).

(** One round of the loop of [ndb_get_database_names_in_dictionary]. *)
Definition database_names_step (database_names : gset string)
    (elmt : Dictionary.Element) : gset string :=
  (* Skip the table if it is not in an expected state
     or if it is a temporary or blob table. *)
  if (bool_decide (Dictionary.state elmt ≠ Object.StateOnline)
      && bool_decide (Dictionary.state elmt ≠ Object.StateBuilding))
     || ndb_name_is_temp (Dictionary.name elmt)
     || ndb_name_is_blob_prefix (Dictionary.name elmt) then
    database_names                                          (* continue *)
  else database_names ∪ {[Dictionary.database elmt]}.

Definition ndb_get_database_names_in_dictionary (database_names : gset string)
  : Dictionary.M (bool * gset string) :=
  '(res, list) ← Dictionary.listObjects Object.UserTable;
  if bool_decide (res ≠ 0) then mret (false, database_names)
  else mret (true, foldl database_names_step database_names list).

End listing_queries.

(** ** What the specification says, in its own words *)

(** The attribute signature of the hidden primary key column: "unsigned
    64-bit type, length 1, non-nullable, primary-key flag set, auto-increment
    enabled, no default value". *)
Definition hidden_pk_signature (col : Column.t) : Prop :=
  Column.getType col = Column.Bigunsigned
  ∧ Column.getLength col = 1
  ∧ Column.getNullable col = false
  ∧ Column.getPrimaryKey col = true
  ∧ Column.getAutoIncrement col = true
  ∧ Column.getDefaultValue col = None.

(** "The table has exactly one primary-key column and the column with the
    reserved internal name satisfies all six attribute conditions". *)
Definition has_hidden_pk_spec (ndbtab : Table.t) : Prop :=
  Table.getNoOfPrimaryKeys ndbtab = 1
  ∧ ∃ col, Table.getColumnByName ndbtab "$PK" = Some col
           ∧ hidden_pk_signature col.

(** The writes of the packer for a storage kind, with nothing checked
    before them: "write according to the storage kind". *)
Definition write_by_kind (kind : Column.ArrayType) (buf str : list byte) (sz : N)
  : outcome (list byte) :=
  match kind with
  | Column.ArrayTypeFixed => memcpy buf 0 str sz
  | Column.ArrayTypeShortVar =>
      buf ← store buf 0 (uchar sz); memcpy buf 1 str sz
  | Column.ArrayTypeMediumVar =>
      buf ← int2store buf (uint16 sz); memcpy buf 2 str sz
  | Column.ArrayTypeOther _ => Ok buf
  end.

(** "Lifecycle state is online or building". *)
Definition online_or_building (st : Object.State) : Prop :=
  st = Object.StateOnline ∨ st = Object.StateBuilding.

(** "Lifecycle state is one of online, building, or the legacy backup
    marker". *)
Definition usable_state (st : Object.State) : Prop :=
  st = Object.StateOnline ∨ st = Object.StateBuilding
  ∨ st = Object.ObsoleteStateBackup.

(** The listing request of kind [type] on [dict] succeeds with [listing]. *)
Definition lists (dict : Dictionary.t) (type : Object.Type_)
    (listing : list Dictionary.Element) : Prop :=
  Dictionary.value (Dictionary.on_listObjects (Dictionary.service dict) type)
  = (0, listing).

(** The listing request of kind [type] on [dict] fails. *)
Definition listing_fails (dict : Dictionary.t) (type : Object.Type_) : Prop :=
  (Dictionary.value
     (Dictionary.on_listObjects (Dictionary.service dict) type)).1 ≠ 0.

(** The logfile group the service resolves for the undofile [path]. *)
Definition undofile_group (service : Dictionary.Service) (path : string)
  : string :=
  Undofile.getLogfileGroup
    (Dictionary.value (Dictionary.on_getUndofile service (-1) path)).

(** The tablespace the service resolves for the datafile [path]. *)
Definition datafile_tablespace (service : Dictionary.Service) (path : string)
  : string :=
  Datafile.getTablespace
    (Dictionary.value (Dictionary.on_getDatafile service (-1) path)).

(** ** Further notions used by the properties below *)


(** A column type that [ndb_table_has_blobs] counts as a blob. *)
Definition is_blob_type (type : Column.Type_) : Prop :=
  type = Column.Blob ∨ type = Column.Text.

(** The handle after one request of kind [ListObjects type]. *)
Definition after_listObjects (dict : Dictionary.t) (type : Object.Type_)
  : Dictionary.t :=
  {| Dictionary.service := Dictionary.service dict;
     Dictionary.m_error :=
       Dictionary.error
         (Dictionary.on_listObjects (Dictionary.service dict) type);
     Dictionary.requests :=
       Dictionary.requests dict ++ [Dictionary.ListObjects type] |}.

(** ** Concrete tables and dictionaries *)

Module Sample.

Definition column (name : string) (type : Column.Type_) (len : Z)
    (kind : Column.ArrayType) : Column.t :=
  {| Column.getName := name;
     Column.getType := type;
     Column.getLength := len;
     Column.getArrayType := kind;
     Column.getNullable := true;
     Column.getPrimaryKey := false;
     Column.getAutoIncrement := false;
     Column.getDefaultValue := None |}.

(** The column NDB adds to a table created without a primary key. *)
Definition hidden_pk : Column.t :=
  {| Column.getName := "$PK";
     Column.getType := Column.Bigunsigned;
     Column.getLength := 1;
     Column.getArrayType := Column.ArrayTypeFixed;
     Column.getNullable := false;
     Column.getPrimaryKey := true;
     Column.getAutoIncrement := true;
     Column.getDefaultValue := None |}.

(** The hidden key column with its nullable attribute changed. *)
Definition nullable_pk : Column.t :=
  {| Column.getName := "$PK";
     Column.getType := Column.Bigunsigned;
     Column.getLength := 1;
     Column.getArrayType := Column.ArrayTypeFixed;
     Column.getNullable := true;
     Column.getPrimaryKey := true;
     Column.getAutoIncrement := true;
     Column.getDefaultValue := None |}.

(** Extra metadata that was retrieved and carries version 0. *)
Definition version_0_metadata : ExtraMetadata :=
  {| get_result := 0; version := 0; unpacked_data := [];
     unpacked_length := 0 |}.

(** Extra metadata that could not be retrieved. *)
Definition no_metadata : ExtraMetadata :=
  {| get_result := 1; version := 0; unpacked_data := [];
     unpacked_length := 0 |}.

(** A table handle over a list of columns, looked up by position and by
    name. *)
Definition table (columns : list Column.t) (keys : Z)
    (tablespace_name : string) (tablespace_id : option Z)
    (metadata : ExtraMetadata) : Table.t :=
  {| Table.getNoOfColumns := Z.of_nat (length columns);
     Table.getColumn := fun i =>
       if bool_decide (0 ≤ i) then columns !! Z.to_nat i else None;
     Table.getColumnByName := fun name =>
       list_find (fun c => Column.getName c = name) columns ≫= fun ic =>
       Some ic.2;
     Table.getNoOfPrimaryKeys := keys;
     Table.getTablespaceName := tablespace_name;
     Table.getTablespace := tablespace_id;
     Table.getExtraMetadata := metadata |}.

Definition table_of (columns : list Column.t) (keys : Z) : Table.t :=
  table columns keys "" None no_metadata.

Definition zero_buf : list byte := replicate 512 x00.


Definition short_table : Table.t :=
  table_of [column "s" Column.Varchar 512 Column.ArrayTypeShortVar] 0.

(** A table with a key and a text column. *)
Definition text_table : Table.t :=
  table_of [hidden_pk; column "doc" Column.Text 1 Column.ArrayTypeFixed] 1.

(** A handle that reports one column more than it has: the third lookup
    yields the null pointer. *)
Definition short_of_columns : Table.t :=
  {| Table.getNoOfColumns := 3;
     Table.getColumn := Table.getColumn text_table;
     Table.getColumnByName := Table.getColumnByName text_table;
     Table.getNoOfPrimaryKeys := 1;
     Table.getTablespaceName := "";
     Table.getTablespace := None;
     Table.getExtraMetadata := no_metadata |}.

(** A handle that reports two columns and has only the first. *)
Definition gap_table : Table.t :=
  {| Table.getNoOfColumns := 2;
     Table.getColumn := Table.getColumn (table_of [hidden_pk] 1);
     Table.getColumnByName := Table.getColumnByName (table_of [hidden_pk] 1);
     Table.getNoOfPrimaryKeys := 1;
     Table.getTablespaceName := "";
     Table.getTablespace := None;
     Table.getExtraMetadata := no_metadata |}.

(** A table whose columns are declared longer than the 512 bytes of the
    packer's buffer. *)
Definition long_table : Table.t :=
  table_of [ column "c" Column.Char 600 Column.ArrayTypeFixed;
             column "v" Column.Varchar 600 Column.ArrayTypeShortVar ] 0.

(** One instance of the three predicates of [sql/ndb_name_util.h], to
    evaluate the queries on concrete listings: a name is reserved by its
    prefix, [#sql] for temporary tables, [NDB$BLOB] for the parts tables of
    blob columns and [ndb_index_stat] for the index statistics tables. The
    specification leaves the patterns open, and the theorems hold for any
    three predicates. *)
Definition is_temp (name : string) : bool := String.prefix "#sql" name.
Definition is_blob_prefix (name : string) : bool :=
  String.prefix "NDB$BLOB" name.
Definition is_index_stat (name : string) : bool :=
  String.prefix "ndb_index_stat" name.

Definition element (database name : string) (state : Object.State)
  : Dictionary.Element :=
  {| Dictionary.name := name; Dictionary.database := database;
     Dictionary.state := state |}.

Definition ok {A : Type} (a : A) : Dictionary.Reply A :=
  {| Dictionary.value := a; Dictionary.error := {| code := 0 |} |}.

Definition failed {A : Type} (a : A) (err : Z) : Dictionary.Reply A :=
  {| Dictionary.value := a; Dictionary.error := {| code := err |} |}.

(** A handle on which no request has been sent yet. *)
Definition connect (service : Dictionary.Service) : Dictionary.t :=
  {| Dictionary.service := service;
     Dictionary.m_error := {| code := 0 |};
     Dictionary.requests := [] |}.

(** A service whose every listing request fails with error 4009 and whose
    lookups find nothing. *)
Definition down : Dictionary.Service :=
  {| Dictionary.on_listObjects := fun _ => failed (-1, []) 4009;
     Dictionary.on_getTablespace := fun _ =>
       failed {| Tablespace.getName := "" |} 4009;
     Dictionary.on_getUndofile := fun _ _ =>
       failed {| Undofile.getLogfileGroup := "" |} 4009;
     Dictionary.on_getDatafile := fun _ _ =>
       failed {| Datafile.getTablespace := "" |} 4009 |}.

(** A service that lists [tables] as the user tables and [files] (name and
    owner) as the undofiles and the datafiles; a file it does not know is
    resolved to an empty owner with error 723. *)
Definition serving (tables : list Dictionary.Element)
    (files : list (string * string)) (tablespaces : list (Z * string))
  : Dictionary.Service :=
  let file_elements := (fun f => element "" f.1 Object.StateOnline) <$> files in
  let owner path :=
    match list_find (fun f => f.1 = path) files with
    | Some (_, f) => ok f.2
    | None => failed "" 723
    end in
  {| Dictionary.on_listObjects := fun type =>
       match type with
       | Object.UserTable => ok (0, tables)
       | Object.Undofile | Object.Datafile => ok (0, file_elements)
       | Object.Tablespace =>
           ok (0, (fun t => element "" t.2 Object.StateOnline) <$> tablespaces)
       | Object.LogfileGroup =>
           ok (0, (fun f => element "" f.2 Object.StateOnline) <$> files)
       end;
     Dictionary.on_getTablespace := fun id =>
       match list_find (fun t => t.1 = id) tablespaces with
       | Some (_, t) => ok {| Tablespace.getName := t.2 |}
       | None => failed {| Tablespace.getName := "" |} 723
       end;
     Dictionary.on_getUndofile := fun _ path =>
       let r := owner path in
       {| Dictionary.value := {| Undofile.getLogfileGroup := Dictionary.value r |};
          Dictionary.error := Dictionary.error r |};
     Dictionary.on_getDatafile := fun _ path =>
       let r := owner path in
       {| Dictionary.value := {| Datafile.getTablespace := Dictionary.value r |};
          Dictionary.error := Dictionary.error r |} |}.

(** The listing of the specification's examples. *)
Definition spec_tables : list Dictionary.Element :=
  [ element "db1" "t1" Object.StateOnline;
    element "db1" "#sql_t2" Object.StateOnline;
    element "db2" "t3" Object.StateOnline;
    element "db1" "t4" Object.StateDropping ].

(** A cluster whose only table holds index statistics. *)
Definition index_stat_tables : list Dictionary.Element :=
  [ element "mysql" "ndb_index_stat_head" Object.StateOnline ].

Definition spec_undofiles : list (string * string) :=
  [ ("uf1", "lg_a"); ("uf2", "lg_b") ].

(** Three datafiles, two of them of tablespace [ts_1]. *)
Definition datafiles : list (string * string) :=
  [ ("df1", "ts_1"); ("df2", "ts_2"); ("df3", "ts_1") ].

End Sample.

(** * Properties *)

(** ** The memory primitives *)

Lemma uchar_to_N (n : N) : Byte.to_N (uchar n) = (n mod 256)%N.
Proof.
  unfold uchar.
  destruct (Byte.of_N (n mod 256)%N) as [b|] eqn:E; simpl.
  - by apply Byte.to_of_N.
  - apply Byte.of_N_None_iff in E.
    pose proof (N.mod_upper_bound n 256 ltac:(lia)). lia.
Qed.

Lemma uchar_small (n : N) : (n < 256)%N → Byte.to_N (uchar n) = n.
Proof. intros H. rewrite uchar_to_N. by apply N.mod_small. Qed.

Lemma memcpy_fits (dst : list byte) (off : nat) (src : list byte) :
  (off + length src ≤ length dst)%nat →
  memcpy dst off src (N.of_nat (length src))
  = Ok (take off dst ++ src ++ drop (off + length src) dst).
Proof.
  intros H. unfold memcpy. rewrite Nat2N.id.
  rewrite bool_decide_true by lia.
  by rewrite (take_ge src) by lia.
Qed.

Lemma memcpy_overrun (dst : list byte) (off : nat) (src : list byte) (n : N) :
  (length dst < off + N.to_nat n)%nat → memcpy dst off src n = BufferOverrun.
Proof.
  intros H. unfold memcpy. by rewrite bool_decide_false by lia.
Qed.


Lemma int2store_uint2korr (b0 b1 : byte) (rest : list byte) (A : N) :
  (A < 65536)%N →
  ∃ c0 c1, int2store (b0 :: b1 :: rest) A = Ok (c0 :: c1 :: rest)
           ∧ uint2korr c0 c1 = A.
Proof.
  intros HA. exists (uchar (N.land A 255)), (uchar (N.shiftr A 8)).
  split; [done|]. unfold uint2korr.
  change 255%N with (N.ones 8). rewrite N.land_ones, N.shiftr_div_pow2.
  change (2 ^ 8)%N with 256%N.
  rewrite uchar_to_N, N.Div0.mod_mod.
  rewrite uchar_small.
  - pose proof (N.div_mod A 256 ltac:(lia)). lia.
  - apply N.Div0.div_lt_upper_bound. lia.
Qed.

(** ** ndb_pack_varchar *)

Lemma ndb_pack_varchar_unfold (NDEBUG : bool) (ndbtab : Table.t)
    (column_index : Z) (col : Column.t) (buf str : list byte) (sz : N) :
  Table.getColumn ndbtab (static_cast_int column_index) = Some col →
  ndb_pack_varchar NDEBUG ndbtab column_index buf str sz
  = if NDEBUG || bool_decide (Column.getLength col ≤ 512)
    then write_by_kind (Column.getArrayType col) buf str sz
    else AssertFailed.
Proof.
  intros Hcol. unfold ndb_pack_varchar, assert, member, sizeof_buf.
  rewrite Hcol. destruct NDEBUG; simpl.
  - by destruct (Column.getArrayType col).
  - case_bool_decide; simpl; [|done]. by destruct (Column.getArrayType col).
Qed.

Lemma write_fixed (buf str : list byte) :
  (length str ≤ length buf)%nat →
  write_by_kind Column.ArrayTypeFixed buf str (N.of_nat (length str))
  = Ok (str ++ drop (length str) buf).
Proof. intros H. simpl. by rewrite memcpy_fits. Qed.

Lemma write_short_var (buf str : list byte) :
  (1 + length str ≤ length buf)%nat →
  write_by_kind Column.ArrayTypeShortVar buf str (N.of_nat (length str))
  = Ok (uchar (N.of_nat (length str)) :: str ++ drop (1 + length str) buf).
Proof.
  intros H. destruct buf as [|b0 buf]; simpl in *; [lia|].
  rewrite memcpy_fits by (simpl; lia). done.
Qed.

Lemma write_medium_var (buf str : list byte) :
  (2 + length str ≤ length buf)%nat →
  (N.of_nat (length str) < 65536)%N →
  ∃ c0 c1,
    uint2korr c0 c1 = N.of_nat (length str)
    ∧ write_by_kind Column.ArrayTypeMediumVar buf str (N.of_nat (length str))
      = Ok (c0 :: c1 :: str ++ drop (2 + length str) buf).
Proof.
  intros H Hs. destruct buf as [|b0 [|b1 buf]]; simpl in H; [lia..|].
  destruct (int2store_uint2korr b0 b1 buf (uint16 (N.of_nat (length str))))
    as (c0 & c1 & Hst & Hrd).
  { unfold uint16. by apply N.mod_upper_bound. }
  exists c0, c1. split.
  - rewrite Hrd. unfold uint16. by apply N.mod_small.
  - unfold write_by_kind. rewrite Hst. simpl.
    rewrite memcpy_fits by (simpl; lia). done.
Qed.

(** C1 (as amended). For a column whose declared length [L] is at most the
    512 bytes of the buffer and a source string of [s] bytes, with [s ≤ L]
    less the prefix bytes of the storage kind, the packer leaves in the
    buffer: for the fixed kind the [s] source bytes from offset 0 and no
    prefix; for the short-variable kind one byte equal to [s mod 256] and then
    the source bytes from offset 1; for the medium-variable kind two bytes
    that hold [s] (low byte first) and then the source bytes from offset 2.
    The bytes of the buffer after those written keep their value. *)
Theorem ndb_pack_varchar_layout (NDEBUG : bool) (ndbtab : Table.t)
    (column_index : Z) (col : Column.t) (buf str : list byte) :
  Table.getColumn ndbtab (static_cast_int column_index) = Some col →
  length buf = 512%nat →
  Column.getLength col ≤ 512 →
  (Column.getArrayType col = Column.ArrayTypeFixed →
   Z.of_nat (length str) ≤ Column.getLength col →
   ndb_pack_varchar NDEBUG ndbtab column_index buf str (N.of_nat (length str))
   = Ok (str ++ drop (length str) buf))
  ∧ (Column.getArrayType col = Column.ArrayTypeShortVar →
     Z.of_nat (length str) ≤ Column.getLength col - 1 →
     ∃ prefix,
       Byte.to_N prefix = (N.of_nat (length str) mod 256)%N
       ∧ ndb_pack_varchar NDEBUG ndbtab column_index buf str
           (N.of_nat (length str))
         = Ok (prefix :: str ++ drop (1 + length str) buf))
  ∧ (Column.getArrayType col = Column.ArrayTypeMediumVar →
     Z.of_nat (length str) ≤ Column.getLength col - 2 →
     ∃ low high,
       uint2korr low high = N.of_nat (length str)
       ∧ ndb_pack_varchar NDEBUG ndbtab column_index buf str
           (N.of_nat (length str))
         = Ok (low :: high :: str ++ drop (2 + length str) buf)).
Proof.
  intros Hcol Hbuf HL.
  rewrite (ndb_pack_varchar_unfold _ _ _ col) by done.
  rewrite (bool_decide_true (Column.getLength col ≤ 512)) by done.
  rewrite orb_true_r.
  split; [|split]; intros -> Hs.
  - apply write_fixed. lia.
  - exists (uchar (N.of_nat (length str))). split; [apply uchar_to_N|].
    apply write_short_var. lia.
  - apply write_medium_var; lia.
Qed.

(** A short-variable column of length 512 and a source of 300 bytes: the
    prefix byte is 300 mod 256 = 44. *)
Lemma ndb_pack_varchar_layout_witness :
  ∃ prefix,
    Byte.to_N prefix = 44%N
    ∧ ndb_pack_varchar false
        (Sample.table_of
           [Sample.column "c" Column.Varchar 512 Column.ArrayTypeShortVar] 0)
        0 Sample.zero_buf (replicate 300 x61) 300
      = Ok (prefix :: replicate 300 x61 ++ replicate 211 x00).
Proof.
  exact (proj1 (proj2
    (ndb_pack_varchar_layout false
       (Sample.table_of
          [Sample.column "c" Column.Varchar 512 Column.ArrayTypeShortVar] 0)
       0 (Sample.column "c" Column.Varchar 512 Column.ArrayTypeShortVar)
       Sample.zero_buf (replicate 300 x61) eq_refl eq_refl
       ltac:(vm_compute; discriminate)))
    eq_refl ltac:(vm_compute; discriminate)).
Defined.

(** C1, as stated, at a fixed column of declared length 600, longer than
    the buffer. With assertions on, the program aborts before any write,
    even for a source of 2 bytes. With assertions off, a source of 600
    bytes, within the declared length, makes [memcpy] run past the 512 bytes
    of the buffer. In neither case does the buffer hold the source bytes. *)
Lemma ndb_pack_varchar_long_column :
  ndb_pack_varchar false Sample.long_table 0 Sample.zero_buf [x61; x62] 2
  = AssertFailed
  ∧ Z.of_nat (length (replicate 600 x61)) ≤ 600
  ∧ ndb_pack_varchar true Sample.long_table 0 Sample.zero_buf
      (replicate 600 x61) 600
    = BufferOverrun.
Proof. vm_compute. split; [done|]. split; [discriminate|done]. Qed.

(** C9 (as amended). The assertion on the declared length is the only check
    of the packer, and it exists only in a build with assertions. Compiled
    with [NDEBUG], the packer checks nothing: whatever the declared length,
    it goes on to the writes of the column's storage kind. Compiled without
    [NDEBUG], it aborts on a declared length above 512 before any write, and
    goes on to the same writes otherwise. *)
Theorem ndb_pack_varchar_length_check (ndbtab : Table.t) (column_index : Z)
    (col : Column.t) (buf str : list byte) (sz : N) :
  Table.getColumn ndbtab (static_cast_int column_index) = Some col →
  ndb_pack_varchar true ndbtab column_index buf str sz
  = write_by_kind (Column.getArrayType col) buf str sz
  ∧ ndb_pack_varchar false ndbtab column_index buf str sz
    = if bool_decide (Column.getLength col ≤ 512)
      then write_by_kind (Column.getArrayType col) buf str sz
      else AssertFailed.
Proof.
  intros Hcol. by rewrite !(ndb_pack_varchar_unfold _ _ _ col) by done.
Qed.

(** A short-variable column declared 600 bytes long, 2 source bytes. *)
Lemma ndb_pack_varchar_length_check_witness :
  ndb_pack_varchar true Sample.long_table 1 Sample.zero_buf [x61; x62] 2
  = Ok (x02 :: x61 :: x62 :: replicate 509 x00)
  ∧ ndb_pack_varchar false Sample.long_table 1 Sample.zero_buf [x61; x62] 2
    = AssertFailed.
Proof.
  exact (ndb_pack_varchar_length_check Sample.long_table 1
           (Sample.column "v" Column.Varchar 600 Column.ArrayTypeShortVar)
           Sample.zero_buf [x61; x62] 2 eq_refl).
Defined.

(** C9, as stated, in a build with assertions: on a fixed column declared
    513 bytes long the packer takes the failing branch of the assertion and
    does not go on to the write of the fixed kind, which would have
    succeeded. *)
Lemma ndb_pack_varchar_assertion_taken :
  ndb_pack_varchar false
    (Sample.table_of [Sample.column "c" Column.Char 513 Column.ArrayTypeFixed] 0)
    0 Sample.zero_buf [x61] 1
  = AssertFailed
  ∧ write_by_kind Column.ArrayTypeFixed Sample.zero_buf [x61] 1
    = Ok (x61 :: replicate 511 x00).
Proof. by vm_compute. Qed.

(** ** ndb_get_extra_metadata_version *)

(** C8. The version reader returns 0 whenever the retrieval reports a nonzero
    result code and the retrieved version otherwise. Its result is a plain
    number, with no error beside it: a table whose retrieval failed and a
    table whose retrieval succeeded with version 0 give the same result. *)
Theorem ndb_get_extra_metadata_version_sentinel (ndbtab : Table.t) :
  ndb_get_extra_metadata_version ndbtab
  = (if bool_decide (get_result (Table.getExtraMetadata ndbtab) = 0)
     then version (Table.getExtraMetadata ndbtab) else 0)
  ∧ ∀ absent : Table.t,
      get_result (Table.getExtraMetadata ndbtab) ≠ 0 →
      get_result (Table.getExtraMetadata absent) = 0 →
      version (Table.getExtraMetadata absent) = 0 →
      ndb_get_extra_metadata_version ndbtab
      = ndb_get_extra_metadata_version absent.
Proof.
  unfold ndb_get_extra_metadata_version. split.
  - by repeat case_bool_decide.
  - intros absent Hfail Hok Hv. rewrite Hv. by repeat case_bool_decide.
Qed.

(** A table whose retrieval fails and a table that carries version 0. *)
Lemma ndb_get_extra_metadata_version_sentinel_witness :
  ndb_get_extra_metadata_version
    (Sample.table [] 0 "" None Sample.no_metadata) = 0
  ∧ ndb_get_extra_metadata_version
      (Sample.table [] 0 "" None Sample.no_metadata)
    = ndb_get_extra_metadata_version
        (Sample.table [] 0 "" None Sample.version_0_metadata).
Proof.
  split.
  - exact (proj1 (ndb_get_extra_metadata_version_sentinel
                    (Sample.table [] 0 "" None Sample.no_metadata))).
  - apply (proj2 (ndb_get_extra_metadata_version_sentinel
                    (Sample.table [] 0 "" None Sample.no_metadata))).
    + vm_compute; discriminate.
    + reflexivity.
    + reflexivity.
Defined.

(** A retrieval that succeeds hands back its version. *)
Lemma ndb_get_extra_metadata_version_example :
  ndb_get_extra_metadata_version
    (Sample.table [] 0 "" None
       {| get_result := 0; version := 2; unpacked_data := [x01];
          unpacked_length := 1 |})
  = 2.
Proof. reflexivity. Qed.

(** ** ndb_table_has_hidden_pk *)

Lemma ndb_table_has_hidden_pk_true (ndbtab : Table.t) :
  ndb_table_has_hidden_pk ndbtab = Ok true ↔ has_hidden_pk_spec ndbtab.
Proof.
  unfold ndb_table_has_hidden_pk, has_hidden_pk_spec, hidden_pk_signature,
    hidden_pk_name.
  case_bool_decide as Hpk.
  2: { split; [discriminate | by intros [? _]]. }
  destruct (Table.getColumnByName ndbtab "$PK") as [col|]; simpl.
  - unfold and_then, member; simpl.
    repeat (case_bool_decide; simpl);
      (split;
       [ first [ discriminate | intros _; split; [done|]; by exists col ]
       | by intros [_ (c & [= <-] & ? & ? & ? & ? & ? & ?)] ]).
  - split; [discriminate | by intros [_ (c & [=] & _)]].
Qed.

Lemma ndb_table_has_hidden_pk_total (ndbtab : Table.t) :
  ∃ b, ndb_table_has_hidden_pk ndbtab = Ok b.
Proof.
  unfold ndb_table_has_hidden_pk, hidden_pk_name.
  case_bool_decide as Hpk; [|by eexists].
  destruct (Table.getColumnByName ndbtab "$PK") as [col|]; simpl.
  - unfold and_then, member; simpl.
    repeat (case_bool_decide; simpl); by eexists.
  - by eexists.
Qed.

(** C4. The predicate is true exactly when the table has one primary-key
    column and its column named [$PK] has the six attributes of the hidden
    key (unsigned 64-bit type, length 1, not nullable, primary key,
    auto-increment, no default value); it is false in every other case, so
    as soon as the number of keys is not one or one of the six attributes
    differs. *)
Theorem ndb_table_has_hidden_pk_iff (ndbtab : Table.t) :
  (ndb_table_has_hidden_pk ndbtab = Ok true ↔ has_hidden_pk_spec ndbtab)
  ∧ (ndb_table_has_hidden_pk ndbtab = Ok false ↔ ¬ has_hidden_pk_spec ndbtab)
  ∧ (Table.getNoOfPrimaryKeys ndbtab ≠ 1 →
     ndb_table_has_hidden_pk ndbtab = Ok false)
  ∧ (∀ col,
       Table.getColumnByName ndbtab "$PK" = Some col →
       Column.getType col ≠ Column.Bigunsigned
       ∨ Column.getLength col ≠ 1
       ∨ Column.getNullable col ≠ false
       ∨ Column.getPrimaryKey col ≠ true
       ∨ Column.getAutoIncrement col ≠ true
       ∨ Column.getDefaultValue col ≠ None →
       ndb_table_has_hidden_pk ndbtab = Ok false).
Proof.
  pose proof (ndb_table_has_hidden_pk_true ndbtab) as Htrue.
  destruct (ndb_table_has_hidden_pk_total ndbtab) as [b Hb].
  assert (ndb_table_has_hidden_pk ndbtab = Ok false ↔ ¬ has_hidden_pk_spec ndbtab)
    as Hfalse.
  { rewrite <- Htrue, Hb. destruct b; split; congruence. }
  split; [done|]. split; [done|]. split.
  - intros Hpk. apply Hfalse. intros [? _]. done.
  - intros col Hcol Hdiff. apply Hfalse.
    intros [_ (col' & Hcol' & Hsig)].
    rewrite Hcol in Hcol'. injection Hcol' as <-.
    destruct Hsig as (? & ? & ? & ? & ? & ?).
    destruct Hdiff as [?|[?|[?|[?|[?|?]]]]]; done.
Qed.

(** The table NDB makes for [CREATE TABLE t (a INT)] has the hidden key; the
    same table with a nullable [$PK] column, or with two keys, has not. *)
Lemma ndb_table_has_hidden_pk_iff_witness :
  ndb_table_has_hidden_pk (Sample.table_of [Sample.hidden_pk] 1) = Ok true
  ∧ ndb_table_has_hidden_pk (Sample.table_of [Sample.nullable_pk] 1) = Ok false
  ∧ ndb_table_has_hidden_pk (Sample.table_of [Sample.hidden_pk] 2) = Ok false.
Proof.
  split; [|split].
  - apply (proj1 (ndb_table_has_hidden_pk_iff
                    (Sample.table_of [Sample.hidden_pk] 1))).
    split; [reflexivity|]. exists Sample.hidden_pk.
    split; [reflexivity|]. repeat split.
  - apply (proj2 (proj2 (proj2 (ndb_table_has_hidden_pk_iff
                                  (Sample.table_of [Sample.nullable_pk] 1))))
             Sample.nullable_pk eq_refl).
    right. right. left. discriminate.
  - apply (proj1 (proj2 (proj2 (ndb_table_has_hidden_pk_iff
                                  (Sample.table_of [Sample.hidden_pk] 2))))).
    vm_compute; discriminate.
Defined.

(** C10. With one primary key and no column named [$PK], the lookup yields
    the null pointer and the predicate answers false: no attribute of the
    missing column is read (reading one would end in [NullDeref]). *)
Theorem ndb_table_has_hidden_pk_no_column (ndbtab : Table.t) :
  Table.getNoOfPrimaryKeys ndbtab = 1 →
  Table.getColumnByName ndbtab "$PK" = None →
  ndb_table_has_hidden_pk ndbtab = Ok false.
Proof.
  intros Hpk Hcol. unfold ndb_table_has_hidden_pk, hidden_pk_name.
  rewrite bool_decide_true by done. by rewrite Hcol.
Qed.

(** A table with the single key column [id] and no [$PK] column. *)
Lemma ndb_table_has_hidden_pk_no_column_witness :
  ndb_table_has_hidden_pk
    (Sample.table_of
       [Sample.column "id" Column.Bigunsigned 1 Column.ArrayTypeFixed] 1)
  = Ok false.
Proof.
  exact (ndb_table_has_hidden_pk_no_column
           (Sample.table_of
              [Sample.column "id" Column.Bigunsigned 1 Column.ArrayTypeFixed] 1)
           eq_refl eq_refl).
Defined.

(** Reading an attribute through the missing column is what the guard
    avoids. *)
Lemma member_of_null_column :
  member (None : option Column.t) Column.getType = NullDeref.
Proof. reflexivity. Qed.

(** ** Requests to the dictionary *)

Lemma listObjects_run (type : Object.Type_) (dict : Dictionary.t) :
  Dictionary.listObjects type dict
  = (Dictionary.value (Dictionary.on_listObjects (Dictionary.service dict) type),
     {| Dictionary.service := Dictionary.service dict;
        Dictionary.m_error :=
          Dictionary.error
            (Dictionary.on_listObjects (Dictionary.service dict) type);
        Dictionary.requests :=
          Dictionary.requests dict ++ [Dictionary.ListObjects type] |}).
Proof. reflexivity. Qed.

Lemma bind_run {A B : Type} (m : Dictionary.M A) (k : A → Dictionary.M B)
    (dict dict' : Dictionary.t) (a : A) :
  m dict = (a, dict') → (m ≫= k) dict = k a dict'.
Proof.
  intros H. unfold mbind, Dictionary_bind, Dictionary.bind. by rewrite H.
Qed.

(** A query whose listing request fails returns [false] and the collection
    it was given. *)
Lemma listing_failure {C : Type} (type : Object.Type_) (out : C)
    (loop : list Dictionary.Element → Dictionary.M (bool * C))
    (dict : Dictionary.t) :
  listing_fails dict type →
  ((Dictionary.listObjects type ≫= fun '(res, listing) =>
      if bool_decide (res ≠ 0) then mret (false, out) else loop listing) dict).1
  = (false, out).
Proof.
  unfold listing_fails. intros Hfail.
  rewrite (bind_run _ _ _ _ _ (listObjects_run type dict)).
  destruct (Dictionary.value _) as [res listing]; simpl in *.
  by rewrite bool_decide_true.
Qed.

(** A query whose listing request succeeds goes on with the listing. *)
Lemma listing_success {C : Type} (type : Object.Type_) (out : C)
    (loop : list Dictionary.Element → Dictionary.M (bool * C))
    (dict : Dictionary.t) (listing : list Dictionary.Element) :
  lists dict type listing →
  ∃ dict',
    Dictionary.service dict' = Dictionary.service dict
    ∧ (Dictionary.listObjects type ≫= fun '(res, listing) =>
         if bool_decide (res ≠ 0) then mret (false, out) else loop listing) dict
      = loop listing dict'.
Proof.
  unfold lists. intros Hok. eexists. split; [|
    rewrite (bind_run _ _ _ _ _ (listObjects_run type dict));
    rewrite Hok; simpl; reflexivity ].
  reflexivity.
Qed.

(** C5. Whatever the caller's collection holds, each of the six listing
    queries whose listing request fails returns false and leaves the
    collection as it was. *)
Theorem listing_failure_leaves_output
    (is_temp is_blob_prefix is_index_stat : string → bool)
    (dict : Dictionary.t) (names : gset string) (files : list string)
    (schema_name logfile_group_name tablespace_name : string) :
  (listing_fails dict Object.LogfileGroup →
   (ndb_get_logfile_group_names names dict).1 = (false, names))
  ∧ (listing_fails dict Object.Tablespace →
     (ndb_get_tablespace_names names dict).1 = (false, names))
  ∧ (listing_fails dict Object.UserTable →
     (ndb_get_table_names_in_schema is_temp is_blob_prefix is_index_stat
        schema_name names dict).1 = (false, names))
  ∧ (listing_fails dict Object.Undofile →
     (ndb_get_undofile_names logfile_group_name files dict).1 = (false, files))
  ∧ (listing_fails dict Object.Datafile →
     (ndb_get_datafile_names tablespace_name files dict).1 = (false, files))
  ∧ (listing_fails dict Object.UserTable →
     (ndb_get_database_names_in_dictionary is_temp is_blob_prefix names dict).1
     = (false, names)).
Proof.
  repeat split; intros Hfail.
  - exact (listing_failure _ names (fun l => mret (true, _)) dict Hfail).
  - exact (listing_failure _ names (fun l => mret (true, _)) dict Hfail).
  - exact (listing_failure _ names (fun l => mret (true, _)) dict Hfail).
  - exact (listing_failure _ files
             (fun l => undofile_names_loop logfile_group_name l files
                       ≫= fun names => mret (true, names)) dict Hfail).
  - exact (listing_failure _ files
             (fun l => datafile_names_loop tablespace_name l files
                       ≫= fun names => mret (true, names)) dict Hfail).
  - exact (listing_failure _ names (fun l => mret (true, _)) dict Hfail).
Qed.

(** On a service that refuses every listing request, a collection that
    already holds ["kept"] comes back unchanged from each query. *)
Lemma listing_failure_leaves_output_witness :
  (ndb_get_logfile_group_names {["kept"]} (Sample.connect Sample.down)).1
  = (false, {["kept"]})
  ∧ (ndb_get_tablespace_names {["kept"]} (Sample.connect Sample.down)).1
    = (false, {["kept"]})
  ∧ (ndb_get_table_names_in_schema Sample.is_temp Sample.is_blob_prefix
       Sample.is_index_stat "db1" {["kept"]} (Sample.connect Sample.down)).1
    = (false, {["kept"]})
  ∧ (ndb_get_undofile_names "lg_a" ["kept"] (Sample.connect Sample.down)).1
    = (false, ["kept"])
  ∧ (ndb_get_datafile_names "ts_1" ["kept"] (Sample.connect Sample.down)).1
    = (false, ["kept"])
  ∧ (ndb_get_database_names_in_dictionary Sample.is_temp Sample.is_blob_prefix
       {["kept"]} (Sample.connect Sample.down)).1
    = (false, {["kept"]}).
Proof.
  destruct (listing_failure_leaves_output Sample.is_temp Sample.is_blob_prefix
              Sample.is_index_stat (Sample.connect Sample.down) {["kept"]}
              ["kept"] "db1" "lg_a" "ts_1")
    as (H1 & H2 & H3 & H4 & H5 & H6).
  refine (conj (H1 _) (conj (H2 _) (conj (H3 _) (conj (H4 _)
            (conj (H5 _) (H6 _))))));
    vm_compute; discriminate.
Defined.

(** ** Tablespace name with fallback *)

(** C6. When the table's own tablespace name is not empty it is returned and
    the dictionary is left as it was: no request is sent. When the name is
    empty and the table carries a tablespace id, one request resolves the id;
    the result is the resolved name when the dictionary's error code is 0
    after the request and the empty string otherwise. The result is a plain
    string in both cases: the error does not reach the caller. *)
Theorem ndb_table_tablespace_name_fallback (ndbtab : Table.t)
    (dict : Dictionary.t) :
  (Table.getTablespaceName ndbtab ≠ "" →
   ndb_table_tablespace_name_dict ndbtab dict
   = (Table.getTablespaceName ndbtab, dict))
  ∧ (∀ id : Z,
       Table.getTablespaceName ndbtab = "" →
       Table.getTablespace ndbtab = Some id →
       (ndb_table_tablespace_name_dict ndbtab dict).1
       = (if bool_decide
               (code (Dictionary.error
                        (Dictionary.on_getTablespace (Dictionary.service dict) id))
                = 0)
          then Tablespace.getName
                 (Dictionary.value
                    (Dictionary.on_getTablespace (Dictionary.service dict) id))
          else "")
       ∧ Dictionary.requests (ndb_table_tablespace_name_dict ndbtab dict).2
         = Dictionary.requests dict ++ [Dictionary.GetTablespace id]).
Proof.
  unfold ndb_table_tablespace_name_dict. split.
  - intros Hname. by rewrite bool_decide_false.
  - intros id Hname Hid. rewrite Hname, Hid. simpl.
    unfold mbind, Dictionary_bind, Dictionary.bind; simpl.
    repeat case_bool_decide; simpl; first [done | tauto].
Qed.

(** The example of the specification: the name is empty, the id is 7, and
    the service resolves 7 to ["ts_alpha"], or fails to. *)
Lemma ndb_table_tablespace_name_fallback_witness :
  (ndb_table_tablespace_name_dict
     (Sample.table [] 0 "" (Some 7) Sample.no_metadata)
     (Sample.connect (Sample.serving [] [] [(7, "ts_alpha")]))).1
  = "ts_alpha"
  ∧ (ndb_table_tablespace_name_dict
       (Sample.table [] 0 "" (Some 7) Sample.no_metadata)
       (Sample.connect Sample.down)).1
    = ""
  ∧ ndb_table_tablespace_name_dict
      (Sample.table [] 0 "ts_named" (Some 7) Sample.no_metadata)
      (Sample.connect Sample.down)
    = ("ts_named", Sample.connect Sample.down).
Proof.
  split; [|split].
  - exact (proj1 (proj2 (ndb_table_tablespace_name_fallback
                           (Sample.table [] 0 "" (Some 7) Sample.no_metadata)
                           (Sample.connect
                              (Sample.serving [] [] [(7, "ts_alpha")])))
                    7 eq_refl eq_refl)).
  - exact (proj1 (proj2 (ndb_table_tablespace_name_fallback
                           (Sample.table [] 0 "" (Some 7) Sample.no_metadata)
                           (Sample.connect Sample.down))
                    7 eq_refl eq_refl)).
  - apply (proj1 (ndb_table_tablespace_name_fallback
                    (Sample.table [] 0 "ts_named" (Some 7) Sample.no_metadata)
                    (Sample.connect Sample.down))).
    vm_compute; discriminate.
Defined.

(** ** Queries that collect into a set *)

(** A loop whose every round adds [key e] when [P e] holds, and nothing
    otherwise, adds the keys of the listed elements that satisfy [P]. *)
Lemma foldl_collect {A : Type} (step : gset string → A → gset string)
    (key : A → string) (P : A → Prop) :
  (∀ acc e x, x ∈ step acc e ↔ x ∈ acc ∨ (key e = x ∧ P e)) →
  ∀ (l : list A) (acc : gset string) (x : string),
    x ∈ foldl step acc l ↔ x ∈ acc ∨ ∃ e, e ∈ l ∧ key e = x ∧ P e.
Proof.
  intros Hstep. induction l as [|e l IH]; intros acc x; simpl.
  - split; [by left|]. intros [?|(e & He & _)]; [done|].
    by apply elem_of_nil in He.
  - rewrite IH, Hstep. split.
    + intros [[?|[? ?]]|(e' & ? & ? & ?)].
      * by left.
      * right. exists e. split; [left|done].
      * right. exists e'. split; [by right|done].
    + intros [?|(e' & He' & ? & ?)]; [by left; left|].
      apply elem_of_cons in He' as [->|?].
      * left. by right.
      * right. by exists e'.
Qed.

Lemma table_names_in_schema_step_spec
    (is_temp is_blob_prefix is_index_stat : string → bool)
    (schema_name : string) (acc : gset string) (e : Dictionary.Element)
    (x : string) :
  x ∈ table_names_in_schema_step is_temp is_blob_prefix is_index_stat
        schema_name acc e
  ↔ x ∈ acc
    ∨ (Dictionary.name e = x
       ∧ (Dictionary.database e = schema_name
          ∧ is_temp (Dictionary.name e) = false
          ∧ is_blob_prefix (Dictionary.name e) = false
          ∧ is_index_stat (Dictionary.name e) = false
          ∧ usable_state (Dictionary.state e))).
Proof.
  unfold table_names_in_schema_step, usable_state.
  case_bool_decide as Hdb.
  { split; [by left|]. intros [?|(_ & ? & _)]; [done|]. congruence. }
  destruct (is_temp _), (is_blob_prefix _), (is_index_stat _); simpl;
    try (split; [by left | intros [?|(_ & _ & ? & ? & ? & _)]; done]).
  destruct (Dictionary.state e); simpl;
    rewrite ?elem_of_union, ?elem_of_singleton;
    (split;
     [ first [ intros [?|?]; [by left | right; by auto 10] | by left ]
     | intros [?|(? & _ & _ & _ & _ & Hst)];
       [ by auto | first [ by auto | by destruct Hst as [?|[?|?]] ] ] ]).
Qed.

Lemma database_names_step_spec (is_temp is_blob_prefix : string → bool)
    (acc : gset string) (e : Dictionary.Element) (x : string) :
  x ∈ database_names_step is_temp is_blob_prefix acc e
  ↔ x ∈ acc
    ∨ (Dictionary.database e = x
       ∧ (online_or_building (Dictionary.state e)
          ∧ is_temp (Dictionary.name e) = false
          ∧ is_blob_prefix (Dictionary.name e) = false)).
Proof.
  unfold database_names_step, online_or_building.
  destruct (is_temp _), (is_blob_prefix _);
    rewrite ?orb_true_r; simpl;
    try (split; [by left | intros [?|(_ & _ & ? & ?)]; done]).
  rewrite !orb_false_r.
  destruct (Dictionary.state e); simpl;
    rewrite ?elem_of_union, ?elem_of_singleton;
    (split;
     [ first [ intros [?|?]; [by left | right; by auto 10] | by left ]
     | intros [?|(? & Hst & _ & _)];
       [ by auto | first [ by auto | by destruct Hst as [?|?] ] ] ]).
Qed.

(** C3. When the listing request succeeds, the table names query returns
    true, and the set it leaves holds, besides what it held before, exactly
    the names of the listed elements whose database equals the schema asked
    for, whose name is none of temporary, blob part or index statistics, and
    whose state is online, building or the obsolete backup state. *)
Theorem ndb_get_table_names_in_schema_exact
    (is_temp is_blob_prefix is_index_stat : string → bool)
    (dict : Dictionary.t) (listing : list Dictionary.Element)
    (schema_name : string) (table_names : gset string) :
  lists dict Object.UserTable listing →
  ∃ found : gset string,
    (ndb_get_table_names_in_schema is_temp is_blob_prefix is_index_stat
       schema_name table_names dict).1 = (true, found)
    ∧ ∀ x : string,
        x ∈ found
        ↔ x ∈ table_names
          ∨ ∃ elmt,
              elmt ∈ listing
              ∧ Dictionary.name elmt = x
              ∧ Dictionary.database elmt = schema_name
              ∧ is_temp (Dictionary.name elmt) = false
              ∧ is_blob_prefix (Dictionary.name elmt) = false
              ∧ is_index_stat (Dictionary.name elmt) = false
              ∧ usable_state (Dictionary.state elmt).
Proof.
  intros Hok.
  destruct (listing_success _ table_names
              (fun l => mret (true,
                 foldl (table_names_in_schema_step is_temp is_blob_prefix
                          is_index_stat schema_name) table_names l))
              dict listing Hok) as (dict' & _ & Hrun).
  eexists. split.
  - unfold ndb_get_table_names_in_schema. rewrite Hrun. reflexivity.
  - apply (foldl_collect _ Dictionary.name).
    intros acc e x. apply table_names_in_schema_step_spec.
Qed.

(** The listing of the specification's example, asked for schema [db1]. *)
Lemma ndb_get_table_names_in_schema_exact_witness :
  ∃ found : gset string,
    (ndb_get_table_names_in_schema Sample.is_temp Sample.is_blob_prefix
       Sample.is_index_stat "db1" ∅
       (Sample.connect (Sample.serving Sample.spec_tables [] []))).1
    = (true, found)
    ∧ ∀ x : string,
        x ∈ found
        ↔ x ∈ (∅ : gset string)
          ∨ ∃ elmt,
              elmt ∈ Sample.spec_tables
              ∧ Dictionary.name elmt = x
              ∧ Dictionary.database elmt = "db1"
              ∧ Sample.is_temp (Dictionary.name elmt) = false
              ∧ Sample.is_blob_prefix (Dictionary.name elmt) = false
              ∧ Sample.is_index_stat (Dictionary.name elmt) = false
              ∧ usable_state (Dictionary.state elmt).
Proof.
  exact (ndb_get_table_names_in_schema_exact Sample.is_temp
           Sample.is_blob_prefix Sample.is_index_stat
           (Sample.connect (Sample.serving Sample.spec_tables [] []))
           Sample.spec_tables "db1" ∅ eq_refl).
Defined.

(** The example of the specification: of [db1.t1], a temporary table of
    [db1], [db2.t3] and the table [db1.t4] that is being dropped, schema
    [db1] yields [t1] alone. *)
Lemma ndb_get_table_names_in_schema_example :
  (ndb_get_table_names_in_schema Sample.is_temp Sample.is_blob_prefix
     Sample.is_index_stat "db1" ∅
     (Sample.connect (Sample.serving Sample.spec_tables [] []))).1
  = (true, {["t1"]}).
Proof. by vm_compute. Qed.

(** The example of the specification with its own names, for any naming
    predicates that take [__temp_t2] for a temporary name and [t1] for an
    ordinary one. *)
Lemma ndb_get_table_names_in_schema_spec_example
    (is_temp is_blob_prefix is_index_stat : string → bool) :
  is_temp "__temp_t2" = true →
  is_temp "t1" = false → is_blob_prefix "t1" = false →
  is_index_stat "t1" = false →
  (ndb_get_table_names_in_schema is_temp is_blob_prefix is_index_stat "db1" ∅
     (Sample.connect
        (Sample.serving
           [ Sample.element "db1" "t1" Object.StateOnline;
             Sample.element "db1" "__temp_t2" Object.StateOnline;
             Sample.element "db2" "t3" Object.StateOnline;
             Sample.element "db1" "t4" Object.StateDropping ] [] []))).1
  = (true, {["t1"]}).
Proof.
  intros H1 H2 H3 H4.
  unfold ndb_get_table_names_in_schema.
  rewrite (bind_run _ _ _ _ _ (listObjects_run _ _)).
  cbn [Sample.connect Sample.serving Dictionary.service
       Dictionary.on_listObjects Dictionary.value Sample.ok].
  rewrite bool_decide_false by (by intros ?).
  cbn [mret Dictionary_ret Dictionary.ret fst foldl].
  f_equal.
  unfold table_names_in_schema_step, Sample.element.
  cbn [Dictionary.name Dictionary.database Dictionary.state].
  rewrite H1, H2, H3, H4.
  repeat match goal with
         | |- context [bool_decide ?P] =>
             let b := eval vm_compute in (bool_decide P) in
             change (bool_decide P) with b
         end.
  cbn [orb]. destruct (_ || _ || _); by rewrite union_empty_l_L.
Qed.

(** C2 (as amended). When the listing request succeeds, the database names
    query returns true, and the set it leaves holds, besides what it held
    before, exactly the databases of the listed elements whose state is
    online or building and whose name is neither temporary nor a blob part.
    Names of index statistics tables are not looked at. *)
Theorem ndb_get_database_names_in_dictionary_exact
    (is_temp is_blob_prefix : string → bool)
    (dict : Dictionary.t) (listing : list Dictionary.Element)
    (database_names : gset string) :
  lists dict Object.UserTable listing →
  ∃ found : gset string,
    (ndb_get_database_names_in_dictionary is_temp is_blob_prefix
       database_names dict).1 = (true, found)
    ∧ ∀ x : string,
        x ∈ found
        ↔ x ∈ database_names
          ∨ ∃ elmt,
              elmt ∈ listing
              ∧ Dictionary.database elmt = x
              ∧ online_or_building (Dictionary.state elmt)
              ∧ is_temp (Dictionary.name elmt) = false
              ∧ is_blob_prefix (Dictionary.name elmt) = false.
Proof.
  intros Hok.
  destruct (listing_success _ database_names
              (fun l => mret (true,
                 foldl (database_names_step is_temp is_blob_prefix)
                   database_names l))
              dict listing Hok) as (dict' & _ & Hrun).
  eexists. split.
  - unfold ndb_get_database_names_in_dictionary. rewrite Hrun. reflexivity.
  - apply (foldl_collect _ Dictionary.database).
    intros acc e x. apply database_names_step_spec.
Qed.

Lemma ndb_get_database_names_in_dictionary_exact_witness :
  ∃ found : gset string,
    (ndb_get_database_names_in_dictionary Sample.is_temp Sample.is_blob_prefix
       ∅ (Sample.connect (Sample.serving Sample.spec_tables [] []))).1
    = (true, found)
    ∧ ∀ x : string,
        x ∈ found
        ↔ x ∈ (∅ : gset string)
          ∨ ∃ elmt,
              elmt ∈ Sample.spec_tables
              ∧ Dictionary.database elmt = x
              ∧ online_or_building (Dictionary.state elmt)
              ∧ Sample.is_temp (Dictionary.name elmt) = false
              ∧ Sample.is_blob_prefix (Dictionary.name elmt) = false.
Proof.
  exact (ndb_get_database_names_in_dictionary_exact Sample.is_temp
           Sample.is_blob_prefix
           (Sample.connect (Sample.serving Sample.spec_tables [] []))
           Sample.spec_tables ∅ eq_refl).
Defined.

(** The example of the specification: the same listing yields the databases
    [db1] and [db2]. *)
Lemma ndb_get_database_names_in_dictionary_example :
  (ndb_get_database_names_in_dictionary Sample.is_temp Sample.is_blob_prefix
     ∅ (Sample.connect (Sample.serving Sample.spec_tables [] []))).1
  = (true, {["db1"; "db2"]}).
Proof. by vm_compute. Qed.

(** C2, as stated, at a dictionary whose only table is the online index
    statistics table [mysql.ndb_index_stat_head]: the query puts [mysql]
    into the empty set, although no listed element of database [mysql] has a
    name that matches none of the three patterns. *)
Lemma ndb_get_database_names_in_dictionary_index_stat :
  ∃ found : gset string,
    (ndb_get_database_names_in_dictionary Sample.is_temp Sample.is_blob_prefix
       ∅ (Sample.connect (Sample.serving Sample.index_stat_tables [] []))).1
    = (true, found)
    ∧ "mysql" ∈ found
    ∧ ¬ ("mysql" ∈ (∅ : gset string)
         ∨ ∃ elmt,
             elmt ∈ Sample.index_stat_tables
             ∧ Dictionary.database elmt = "mysql"
             ∧ online_or_building (Dictionary.state elmt)
             ∧ Sample.is_temp (Dictionary.name elmt) = false
             ∧ Sample.is_blob_prefix (Dictionary.name elmt) = false
             ∧ Sample.is_index_stat (Dictionary.name elmt) = false).
Proof.
  exists {["mysql"]}. split; [by vm_compute|]. split.
  - by apply elem_of_singleton.
  - intros [Hin|(elmt & Hin & _ & _ & _ & _ & Hstat)].
    + by apply not_elem_of_empty in Hin.
    + apply list_elem_of_singleton in Hin as ->. discriminate Hstat.
Qed.

(** ** Queries that collect into a sequence *)

(** [a.compare(b) == 0] is equality of the two strings, character by
    character. *)
Lemma string_compare_Eq (a b : string) : String.compare a b = Eq ↔ a = b.
Proof.
  split; [apply String.compare_eq_iff|]. intros <-.
  induction a as [|c a IH]; simpl; [done|].
  unfold Ascii.compare. by rewrite N.compare_refl.
Qed.

Lemma filter_none {A : Type} (P : A → Prop) `{!∀ x, Decision (P x)}
    (l : list A) :
  (∀ x, x ∈ l → ¬ P x) → filter P l = [].
Proof.
  induction l as [|a l IH]; intros Hnone; [done|].
  rewrite filter_cons.
  destruct (decide (P a)) as [HP|_].
  - destruct (Hnone a); [by left|done].
  - apply IH. intros x Hx. apply Hnone. by right.
Qed.

Lemma getUndofile_run (node : Z) (path : string) (dict : Dictionary.t) :
  Dictionary.getUndofile node path dict
  = (Dictionary.value
       (Dictionary.on_getUndofile (Dictionary.service dict) node path),
     {| Dictionary.service := Dictionary.service dict;
        Dictionary.m_error :=
          Dictionary.error
            (Dictionary.on_getUndofile (Dictionary.service dict) node path);
        Dictionary.requests :=
          Dictionary.requests dict ++ [Dictionary.GetUndofile node path] |}).
Proof. reflexivity. Qed.

(** The loop appends, in the order of the listing, the names of the
    undofiles whose resolved logfile group is the target. *)
Lemma undofile_names_loop_spec (logfile_group_name : string)
    (elements : list Dictionary.Element) :
  ∀ (undofile_names : list string) (dict : Dictionary.t),
    (undofile_names_loop logfile_group_name elements undofile_names dict).1
    = undofile_names
      ++ (Dictionary.name <$>
          filter (fun elmt =>
                    undofile_group (Dictionary.service dict)
                      (Dictionary.name elmt) = logfile_group_name)
                 elements).
Proof.
  induction elements as [|elmt elements IH]; intros undofile_names dict.
  - simpl. by rewrite app_nil_r.
  - cbn [undofile_names_loop].
    rewrite (bind_run _ _ _ _ _ (getUndofile_run _ _ dict)).
    rewrite IH. cbn [Dictionary.service].
    rewrite filter_cons. fold (undofile_group (Dictionary.service dict)
                                 (Dictionary.name elmt)).
    destruct (decide (undofile_group (Dictionary.service dict)
                        (Dictionary.name elmt) = logfile_group_name))
      as [Heq|Hne].
    + rewrite bool_decide_true by (by apply string_compare_Eq).
      by rewrite fmap_cons, <- app_assoc.
    + rewrite bool_decide_false; [done|].
      intros Hcmp. by apply string_compare_Eq in Hcmp.
Qed.

(** C7 (as amended). When the listing request succeeds, the undofile query
    returns true and appends, in the order of the listing, the name of every
    listed undofile whose logfile group, as the per-file request resolves it,
    equals the target character by character, and of no other. When no
    resolved group equals the target, the sequence is left as it was and the
    result is still true. *)
Theorem ndb_get_undofile_names_exact (dict : Dictionary.t)
    (listing : list Dictionary.Element) (logfile_group_name : string)
    (undofile_names : list string) :
  lists dict Object.Undofile listing →
  (ndb_get_undofile_names logfile_group_name undofile_names dict).1
  = (true,
     undofile_names
     ++ (Dictionary.name <$>
         filter (fun elmt =>
                   undofile_group (Dictionary.service dict)
                     (Dictionary.name elmt) = logfile_group_name)
                listing))
  ∧ ((∀ elmt, elmt ∈ listing →
        undofile_group (Dictionary.service dict) (Dictionary.name elmt)
        ≠ logfile_group_name) →
     (ndb_get_undofile_names logfile_group_name undofile_names dict).1
     = (true, undofile_names)).
Proof.
  intros Hok.
  destruct (listing_success _ undofile_names
              (fun l => undofile_names_loop logfile_group_name l undofile_names
                        ≫= fun names => mret (true, names))
              dict listing Hok) as (dict' & Hsvc & Hrun).
  assert ((ndb_get_undofile_names logfile_group_name undofile_names dict).1
          = (true,
             undofile_names
             ++ (Dictionary.name <$>
                 filter (fun elmt =>
                           undofile_group (Dictionary.service dict)
                             (Dictionary.name elmt) = logfile_group_name)
                        listing))) as Hres.
  { unfold ndb_get_undofile_names. rewrite Hrun.
    pose proof (undofile_names_loop_spec logfile_group_name listing
                  undofile_names dict') as Hloop.
    unfold mbind, Dictionary_bind, Dictionary.bind.
    destruct (undofile_names_loop _ _ _ dict') as [names dict''].
    simpl in *. by rewrite Hloop, Hsvc. }
  split; [done|]. intros Hnone. rewrite Hres. f_equal.
  rewrite filter_none by done. by rewrite app_nil_r.
Qed.

(** The example of the specification: of the undofiles [uf1] of group
    [lg_a] and [uf2] of group [lg_b], group [lg_a] yields [uf1]. *)
Lemma ndb_get_undofile_names_exact_witness :
  (ndb_get_undofile_names "lg_a" []
     (Sample.connect (Sample.serving [] Sample.spec_undofiles []))).1
  = (true, ["uf1"]).
Proof.
  exact (proj1 (ndb_get_undofile_names_exact
                  (Sample.connect (Sample.serving [] Sample.spec_undofiles []))
                  ((fun f => Sample.element "" f.1 Object.StateOnline)
                     <$> Sample.spec_undofiles)
                  "lg_a" [] eq_refl)).
Defined.

(** A target that differs from the resolved group only in case matches
    nothing. *)
Lemma ndb_get_undofile_names_case :
  (ndb_get_undofile_names "LG_A" []
     (Sample.connect (Sample.serving [] Sample.spec_undofiles []))).1
  = (true, []).
Proof. by vm_compute. Qed.

(** C7, as stated, at the empty target: the undofile [uf1] resolves to the
    empty logfile group name, and it is appended. *)
Lemma ndb_get_undofile_names_empty_group :
  undofile_group (Sample.serving [] [("uf1", "")] []) "uf1" = ""
  ∧ (ndb_get_undofile_names "" []
       (Sample.connect (Sample.serving [] [("uf1", "")] []))).1
    = (true, ["uf1"]).
Proof. by vm_compute. Qed.

(** The datafile query is the same loop over datafiles and tablespaces. *)
Lemma datafile_names_loop_spec (tablespace_name : string)
    (elements : list Dictionary.Element) :
  ∀ (datafile_names : list string) (dict : Dictionary.t),
    (datafile_names_loop tablespace_name elements datafile_names dict).1
    = datafile_names
      ++ (Dictionary.name <$>
          filter (fun elmt =>
                    datafile_tablespace (Dictionary.service dict)
                      (Dictionary.name elmt) = tablespace_name)
                 elements).
Proof.
  induction elements as [|elmt elements IH]; intros datafile_names dict.
  - simpl. by rewrite app_nil_r.
  - cbn [datafile_names_loop].
    assert (Dictionary.getDatafile (-1) (Dictionary.name elmt) dict
            = (Dictionary.value
                 (Dictionary.on_getDatafile (Dictionary.service dict) (-1)
                    (Dictionary.name elmt)),
               {| Dictionary.service := Dictionary.service dict;
                  Dictionary.m_error :=
                    Dictionary.error
                      (Dictionary.on_getDatafile (Dictionary.service dict) (-1)
                         (Dictionary.name elmt));
                  Dictionary.requests :=
                    Dictionary.requests dict
                    ++ [Dictionary.GetDatafile (-1) (Dictionary.name elmt)] |}))
      as Hrun by reflexivity.
    rewrite (bind_run _ _ _ _ _ Hrun).
    rewrite IH. cbn [Dictionary.service].
    rewrite filter_cons. fold (datafile_tablespace (Dictionary.service dict)
                                 (Dictionary.name elmt)).
    destruct (decide (datafile_tablespace (Dictionary.service dict)
                        (Dictionary.name elmt) = tablespace_name))
      as [Heq|Hne].
    + rewrite bool_decide_true by (by apply string_compare_Eq).
      by rewrite fmap_cons, <- app_assoc.
    + rewrite bool_decide_false; [done|].
      intros Hcmp. by apply string_compare_Eq in Hcmp.
Qed.

Lemma ndb_get_datafile_names_exact (dict : Dictionary.t)
    (listing : list Dictionary.Element) (tablespace_name : string)
    (datafile_names : list string) :
  lists dict Object.Datafile listing →
  (ndb_get_datafile_names tablespace_name datafile_names dict).1
  = (true,
     datafile_names
     ++ (Dictionary.name <$>
         filter (fun elmt =>
                   datafile_tablespace (Dictionary.service dict)
                     (Dictionary.name elmt) = tablespace_name)
                listing)).
Proof.
  intros Hok.
  destruct (listing_success _ datafile_names
              (fun l => datafile_names_loop tablespace_name l datafile_names
                        ≫= fun names => mret (true, names))
              dict listing Hok) as (dict' & Hsvc & Hrun).
  unfold ndb_get_datafile_names. rewrite Hrun.
  pose proof (datafile_names_loop_spec tablespace_name listing
                datafile_names dict') as Hloop.
  unfold mbind, Dictionary_bind, Dictionary.bind.
  destruct (datafile_names_loop _ _ _ dict') as [names dict''].
  simpl in *. by rewrite Hloop, Hsvc.
Qed.

(** ** The other inspectors *)

(** The name-only lookup answers the null pointer for an empty name, whether
    or not a tablespace id is set. *)
Lemma ndb_table_tablespace_name_empty (ndbtab : Table.t) :
  Table.getTablespaceName ndbtab = "" → ndb_table_tablespace_name ndbtab = None.
Proof. unfold ndb_table_tablespace_name. by intros ->. Qed.

Lemma ndb_table_has_tablespace_iff (ndbtab : Table.t) :
  ndb_table_has_tablespace ndbtab = true
  ↔ Table.getTablespaceName ndbtab ≠ "" ∨ is_Some (Table.getTablespace ndbtab).
Proof.
  unfold ndb_table_has_tablespace, ndb_table_tablespace_name.
  destruct (Table.getTablespaceName ndbtab) as [|c s]; simpl.
  - destruct (Table.getTablespace ndbtab) as [id|]; simpl.
    + split; [|done]. intros _. right. by exists id.
    + split; [done|]. intros [?|[? ?]]; done.
  - split; [|done]. intros _. by left.
Qed.

Lemma ndb_table_has_blobs_example :
  ndb_table_has_blobs
    (Sample.table_of
       [ Sample.hidden_pk;
         Sample.column "doc" Column.Text 1 Column.ArrayTypeFixed ] 1)
  = Ok true
  ∧ ndb_table_has_blobs (Sample.table_of [Sample.hidden_pk] 1) = Ok false.
Proof. by vm_compute. Qed.

(** * Further properties of the code *)

(** ** ndb_pack_varchar: what a successful call has done *)







(** X2. For a short-variable column within the buffer the packer succeeds on
    every source of at most 511 bytes, and the prefix byte it writes is the
    length of the source exactly when that length is below 256. *)
Theorem ndb_pack_varchar_short_var_prefix (NDEBUG : bool) (ndbtab : Table.t)
    (column_index : Z) (col : Column.t) (buf str : list byte) :
  Table.getColumn ndbtab (static_cast_int column_index) = Some col →
  Column.getArrayType col = Column.ArrayTypeShortVar →
  Column.getLength col ≤ 512 →
  length buf = 512%nat →
  (length str ≤ 511)%nat →
  ∃ prefix,
    ndb_pack_varchar NDEBUG ndbtab column_index buf str (N.of_nat (length str))
    = Ok (prefix :: str ++ drop (1 + length str) buf)
    ∧ (Byte.to_N prefix = N.of_nat (length str) ↔ (length str < 256)%nat).
Proof.
  intros Hcol Hkind HL Hbuf Hs.
  rewrite (ndb_pack_varchar_unfold _ _ _ col) by done.
  rewrite (bool_decide_true (Column.getLength col ≤ 512)) by done.
  rewrite orb_true_r, Hkind.
  exists (uchar (N.of_nat (length str))). split.
  - apply write_short_var. lia.
  - rewrite uchar_to_N. split.
    + intros Hmod.
      pose proof (N.mod_upper_bound (N.of_nat (length str)) 256 ltac:(lia)).
      lia.
    + intros Hlt. apply N.mod_small. lia.
Qed.

(** 300 bytes into a short-variable column: the prefix byte is 44. *)
Lemma ndb_pack_varchar_short_var_prefix_witness :
  ∃ prefix,
    ndb_pack_varchar true Sample.short_table 0 Sample.zero_buf
      (replicate 300 x61) (N.of_nat (length (replicate 300 x61)))
    = Ok (prefix :: replicate 300 x61
            ++ drop (1 + length (replicate 300 x61)) Sample.zero_buf)
    ∧ (Byte.to_N prefix = N.of_nat (length (replicate 300 x61))
       ↔ (length (replicate 300 x61) < 256)%nat).
Proof.
  apply (ndb_pack_varchar_short_var_prefix true Sample.short_table 0
           (Sample.column "s" Column.Varchar 512 Column.ArrayTypeShortVar)
           Sample.zero_buf (replicate 300 x61)).
  - reflexivity.
  - reflexivity.
  - vm_compute; discriminate.
  - reflexivity.
  - vm_compute. lia.
Defined.

(** X3. A column whose storage kind is none of the three enumerators makes
    the packer write nothing: when the assertion is off or passes, the
    buffer comes back as it was, whatever the source and the size given. *)
Theorem ndb_pack_varchar_unknown_kind (NDEBUG : bool) (ndbtab : Table.t)
    (column_index : Z) (col : Column.t) (v : Z) (buf str : list byte)
    (sz : N) :
  Table.getColumn ndbtab (static_cast_int column_index) = Some col →
  Column.getArrayType col = Column.ArrayTypeOther v →
  NDEBUG = true ∨ Column.getLength col ≤ 512 →
  ndb_pack_varchar NDEBUG ndbtab column_index buf str sz = Ok buf.
Proof.
  intros Hcol Hkind Hpre.
  rewrite (ndb_pack_varchar_unfold _ _ _ col) by done. rewrite Hkind.
  destruct Hpre as [->|HL]; [done|].
  rewrite (bool_decide_true (Column.getLength col ≤ 512)) by done.
  by rewrite orb_true_r.
Qed.

Lemma ndb_pack_varchar_unknown_kind_witness :
  ndb_pack_varchar false
    (Sample.table_of [Sample.column "u" Column.Char 4 (Column.ArrayTypeOther 7)] 0)
    0 [x01; x02] (replicate 600 x61) 600
  = Ok [x01; x02].
Proof.
  apply (ndb_pack_varchar_unknown_kind false _ 0
           (Sample.column "u" Column.Char 4 (Column.ArrayTypeOther 7)) 7).
  - reflexivity.
  - reflexivity.
  - right. vm_compute; discriminate.
Defined.

(** ** ndb_table_has_blobs *)

(** Over indexes whose columns all exist, the loop answers whether one of
    them has a blob type. *)
Lemma has_blobs_loop_present (ndbtab : Table.t) (indexes : list Z) :
  (∀ i, i ∈ indexes → is_Some (Table.getColumn ndbtab i)) →
  (has_blobs_loop ndbtab indexes = Ok true
   ∨ has_blobs_loop ndbtab indexes = Ok false)
  ∧ (has_blobs_loop ndbtab indexes = Ok true
     ↔ ∃ i col, i ∈ indexes ∧ Table.getColumn ndbtab i = Some col
                ∧ is_blob_type (Column.getType col)).
Proof.
  unfold is_blob_type.
  induction indexes as [|i indexes IH]; intros Hall; simpl.
  - split; [by right|]. split; [done|].
    intros (i & col & Hin & _). by apply elem_of_nil in Hin.
  - destruct (Hall i) as [col Hcol]; [by left|].
    rewrite Hcol. simpl.
    destruct IH as [IHtot IHiff]; [intros j Hj; apply Hall; by right|].
    case_bool_decide as Hblob; simpl.
    { split; [by left|]. split; [|done]. intros _. exists i, col.
      split; [by left|]. split; [done|by left]. }
    case_bool_decide as Htext; simpl.
    { split; [by left|]. split; [|done]. intros _. exists i, col.
      split; [by left|]. split; [done|by right]. }
    split; [done|]. rewrite IHiff. split.
    + intros (j & c & Hj & Hc & Hty). exists j, c. split; [by right|done].
    + intros (j & c & Hj & Hc & Hty).
      apply elem_of_cons in Hj as [->|Hj].
      * rewrite Hcol in Hc. injection Hc as <-. by destruct Hty.
      * by exists j, c.
Qed.

(** Indexes whose columns exist and have no blob type are passed over. *)
Lemma has_blobs_loop_skip (ndbtab : Table.t) (before rest : list Z) :
  (∀ i, i ∈ before →
     ∃ col, Table.getColumn ndbtab i = Some col
            ∧ ¬ is_blob_type (Column.getType col)) →
  has_blobs_loop ndbtab (before ++ rest) = has_blobs_loop ndbtab rest.
Proof.
  unfold is_blob_type.
  induction before as [|i before IH]; intros Hall; simpl; [done|].
  destruct (Hall i) as (col & Hcol & Hty); [by left|].
  rewrite Hcol. simpl.
  rewrite bool_decide_false by (intros ?; apply Hty; by left).
  rewrite bool_decide_false by (intros ?; apply Hty; by right).
  simpl. apply IH. intros j Hj. apply Hall. by right.
Qed.

(** X4. When every index below the number of columns has a column, the blob
    predicate ends in a boolean, and it is true exactly when one of these
    columns is of type [Blob] or [Text]. A table that reports no columns, or
    a negative number of them, has no blobs. *)
Theorem ndb_table_has_blobs_iff (ndbtab : Table.t) :
  (∀ i, 0 ≤ i < Table.getNoOfColumns ndbtab →
     is_Some (Table.getColumn ndbtab i)) →
  (ndb_table_has_blobs ndbtab = Ok true
   ∨ ndb_table_has_blobs ndbtab = Ok false)
  ∧ (ndb_table_has_blobs ndbtab = Ok true
     ↔ ∃ i col, 0 ≤ i < Table.getNoOfColumns ndbtab
                ∧ Table.getColumn ndbtab i = Some col
                ∧ is_blob_type (Column.getType col))
  ∧ (Table.getNoOfColumns ndbtab ≤ 0 → ndb_table_has_blobs ndbtab = Ok false).
Proof.
  intros Hall. unfold ndb_table_has_blobs.
  destruct (has_blobs_loop_present ndbtab
              (seqZ 0 (Table.getNoOfColumns ndbtab))) as [Htot Hiff].
  { intros i Hi. apply elem_of_seqZ in Hi. apply Hall. lia. }
  split; [done|]. split.
  - rewrite Hiff. split; intros (i & col & Hi & Hcol & Hty); exists i, col.
    + apply elem_of_seqZ in Hi. split; [lia|done].
    + split; [apply elem_of_seqZ; lia|done].
  - intros Hn. destruct Htot as [Htrue|Hfalse]; [|done].
    apply Hiff in Htrue as (i & col & Hi & _).
    apply elem_of_seqZ in Hi. lia.
Qed.

Lemma ndb_table_has_blobs_iff_witness :
  (ndb_table_has_blobs Sample.text_table = Ok true
   ∨ ndb_table_has_blobs Sample.text_table = Ok false)
  ∧ (ndb_table_has_blobs Sample.text_table = Ok true
     ↔ ∃ i col, 0 ≤ i < Table.getNoOfColumns Sample.text_table
                ∧ Table.getColumn Sample.text_table i = Some col
                ∧ is_blob_type (Column.getType col))
  ∧ (Table.getNoOfColumns Sample.text_table ≤ 0 →
     ndb_table_has_blobs Sample.text_table = Ok false).
Proof.
  apply (ndb_table_has_blobs_iff Sample.text_table).
  intros i Hi. change (Table.getNoOfColumns Sample.text_table) with 2 in Hi.
  assert (i = 0 ∨ i = 1) as [->| ->] by lia; by eexists.
Defined.

(** X5. The loop stops at the first index that has a blob column or no
    column at all. If the columns before index [j] exist and are not blobs,
    a blob column at [j] makes the result true whatever follows it, and a
    missing column at [j] is read through a null pointer. *)
Theorem ndb_table_has_blobs_first_stop (ndbtab : Table.t) (j : Z) :
  0 ≤ j < Table.getNoOfColumns ndbtab →
  (∀ i, 0 ≤ i < j →
     ∃ col, Table.getColumn ndbtab i = Some col
            ∧ ¬ is_blob_type (Column.getType col)) →
  ((∃ col, Table.getColumn ndbtab j = Some col
           ∧ is_blob_type (Column.getType col)) →
   ndb_table_has_blobs ndbtab = Ok true)
  ∧ (Table.getColumn ndbtab j = None →
     ndb_table_has_blobs ndbtab = NullDeref).
Proof.
  intros Hj Hbefore. unfold ndb_table_has_blobs.
  replace (Table.getNoOfColumns ndbtab)
    with (j + (Table.getNoOfColumns ndbtab - j)) by lia.
  rewrite seqZ_app by lia.
  rewrite has_blobs_loop_skip.
  2: { intros i Hi. apply elem_of_seqZ in Hi. apply Hbefore. lia. }
  rewrite Z.add_0_l, seqZ_cons by lia. simpl. split.
  - intros (col & Hcol & Hty). rewrite Hcol. simpl.
    destruct Hty as [->| ->]; [done|].
    by case_bool_decide.
  - by intros ->.
Qed.

(** A table that reports three columns, whose second is a text column and
    whose third is missing; and one whose second column is missing. *)
Lemma ndb_table_has_blobs_first_stop_witness :
  ndb_table_has_blobs Sample.short_of_columns = Ok true
  ∧ ndb_table_has_blobs Sample.gap_table = NullDeref.
Proof.
  split.
  - apply (proj1 (ndb_table_has_blobs_first_stop Sample.short_of_columns 1
                    ltac:(vm_compute; split; [discriminate|reflexivity])
                    ltac:(intros i Hi; replace i with 0 by lia;
                          eexists; split; [reflexivity|];
                          intros [?|?]; discriminate))).
    eexists. split; [reflexivity|]. by right.
  - apply (proj2 (ndb_table_has_blobs_first_stop Sample.gap_table 1
                    ltac:(vm_compute; split; [discriminate|reflexivity])
                    ltac:(intros i Hi; replace i with 0 by lia;
                          eexists; split; [reflexivity|];
                          intros [?|?]; discriminate))).
    reflexivity.
Defined.

(** ** ndb_table_has_hidden_pk *)

(** X6. The hidden key predicate ends in a boolean for every table handle:
    unlike the blob predicate it never reads through a null column pointer,
    and it has no assertion or array access to fail. *)
Theorem ndb_table_has_hidden_pk_never_fails (ndbtab : Table.t) :
  ndb_table_has_hidden_pk ndbtab ≠ NullDeref
  ∧ ndb_table_has_hidden_pk ndbtab ≠ AssertFailed
  ∧ ndb_table_has_hidden_pk ndbtab ≠ BufferOverrun.
Proof.
  destruct (ndb_table_has_hidden_pk_total ndbtab) as [b ->]. done.
Qed.

(** ** Tablespace of a table: how the three functions agree *)

(** X7. A table has a tablespace exactly when its tablespace name is not
    empty or it carries a tablespace id; it has none exactly when the name is
    empty and there is no id. *)
Theorem ndb_table_has_tablespace_cases (ndbtab : Table.t) :
  (ndb_table_has_tablespace ndbtab = true
   ↔ Table.getTablespaceName ndbtab ≠ ""
     ∨ is_Some (Table.getTablespace ndbtab))
  ∧ (ndb_table_has_tablespace ndbtab = false
     ↔ Table.getTablespaceName ndbtab = ""
       ∧ Table.getTablespace ndbtab = None).
Proof.
  unfold ndb_table_has_tablespace, ndb_table_tablespace_name.
  destruct (Table.getTablespaceName ndbtab) as [|c s]; simpl.
  - destruct (Table.getTablespace ndbtab) as [id|]; simpl.
    + split; split; try done.
      * intros _. right. by exists id.
      * by intros [_ ?].
    + split; split; try done. intros [?|[? ?]]; done.
  - split; split; try done.
    + intros _. by left.
    + by intros [? _].
Qed.

(** X8. The name-only lookup never returns a pointer to an empty string:
    what it returns is the table's own non-empty name, and then the lookup
    with fallback returns the same name and sends no request. *)
Theorem ndb_table_tablespace_name_overloads (ndbtab : Table.t)
    (dict : Dictionary.t) (tablespace_name : string) :
  ndb_table_tablespace_name ndbtab = Some tablespace_name →
  tablespace_name = Table.getTablespaceName ndbtab
  ∧ tablespace_name ≠ ""
  ∧ ndb_table_tablespace_name_dict ndbtab dict = (tablespace_name, dict).
Proof.
  unfold ndb_table_tablespace_name, ndb_table_tablespace_name_dict.
  destruct (Table.getTablespaceName ndbtab) as [|c s]; simpl; [done|].
  by intros [= <-].
Qed.

Lemma ndb_table_tablespace_name_overloads_witness :
  "ts_1" = Table.getTablespaceName
             (Sample.table [] 0 "ts_1" None Sample.no_metadata)
  ∧ "ts_1" ≠ ""
  ∧ ndb_table_tablespace_name_dict
      (Sample.table [] 0 "ts_1" None Sample.no_metadata)
      (Sample.connect Sample.down)
    = ("ts_1", Sample.connect Sample.down).
Proof.
  exact (ndb_table_tablespace_name_overloads
           (Sample.table [] 0 "ts_1" None Sample.no_metadata)
           (Sample.connect Sample.down) "ts_1" eq_refl).
Defined.

(** X9. For a table that has no tablespace the lookup with fallback returns
    the empty string and leaves the dictionary handle as it was: no request
    is sent. So a non-empty result of the lookup means that the table has a
    tablespace. *)
Theorem ndb_table_tablespace_name_no_tablespace (ndbtab : Table.t)
    (dict : Dictionary.t) :
  (ndb_table_has_tablespace ndbtab = false →
   ndb_table_tablespace_name_dict ndbtab dict = ("", dict))
  ∧ ((ndb_table_tablespace_name_dict ndbtab dict).1 ≠ "" →
     ndb_table_has_tablespace ndbtab = true).
Proof.
  assert (ndb_table_has_tablespace ndbtab = false →
          ndb_table_tablespace_name_dict ndbtab dict = ("", dict)) as Hnone.
  { unfold ndb_table_has_tablespace, ndb_table_tablespace_name,
      ndb_table_tablespace_name_dict.
    destruct (Table.getTablespaceName ndbtab) as [|c s]; simpl; [|done].
    by destruct (Table.getTablespace ndbtab). }
  split; [done|]. intros Hname.
  destruct (ndb_table_has_tablespace ndbtab); [done|].
  rewrite Hnone in Hname by done. done.
Qed.

Lemma ndb_table_tablespace_name_no_tablespace_witness :
  ndb_table_tablespace_name_dict
    (Sample.table [] 0 "" None Sample.no_metadata)
    (Sample.connect (Sample.serving [] [] [(7, "ts_alpha")]))
  = ("", Sample.connect (Sample.serving [] [] [(7, "ts_alpha")]))
  ∧ ndb_table_has_tablespace
      (Sample.table [] 0 "" (Some 7) Sample.no_metadata) = true.
Proof.
  split.
  - exact (proj1 (ndb_table_tablespace_name_no_tablespace
                    (Sample.table [] 0 "" None Sample.no_metadata)
                    (Sample.connect (Sample.serving [] [] [(7, "ts_alpha")])))
             eq_refl).
  - apply (proj2 (ndb_table_tablespace_name_no_tablespace
                    (Sample.table [] 0 "" (Some 7) Sample.no_metadata)
                    (Sample.connect (Sample.serving [] [] [(7, "ts_alpha")])))).
    vm_compute; discriminate.
Defined.

(** ** Listing queries: results *)

(** Either the listing request fails and the query returns the collection
    it was given, or it succeeds and the query goes on with the listing. *)
Lemma listing_cases {C : Type} (type : Object.Type_) (out : C)
    (loop : list Dictionary.Element → Dictionary.M (bool * C))
    (dict : Dictionary.t) :
  (listing_fails dict type
   ∧ (Dictionary.listObjects type ≫= fun '(res, listing) =>
        if bool_decide (res ≠ 0) then mret (false, out) else loop listing) dict
     = ((false, out), after_listObjects dict type))
  ∨ (∃ listing,
       lists dict type listing
       ∧ (Dictionary.listObjects type ≫= fun '(res, listing) =>
            if bool_decide (res ≠ 0) then mret (false, out) else loop listing)
           dict
         = loop listing (after_listObjects dict type)).
Proof.
  unfold listing_fails, lists.
  rewrite (bind_run _ _ _ _ _ (listObjects_run type dict)).
  fold (after_listObjects dict type).
  destruct (Dictionary.value _) as [res listing]; simpl.
  destruct (decide (res = 0)) as [->|Hne].
  - right. exists listing. split; [done|]. reflexivity.
  - left. split; [done|]. by rewrite bool_decide_true.
Qed.

Lemma foldl_names (l : list Dictionary.Element) :
  ∀ names : gset string,
    foldl (fun names elmt => names ∪ {[Dictionary.name elmt]}) names l
    = names ∪ list_to_set (Dictionary.name <$> l).
Proof.
  induction l as [|e l IH]; intros names; simpl.
  - by rewrite union_empty_r_L.
  - rewrite IH. by rewrite (assoc_L (∪)).
Qed.

(** X10. When the listing request succeeds, the logfile group query returns
    true and leaves in the set what it held before and the name of every
    listed logfile group, whatever its state. *)
Theorem ndb_get_logfile_group_names_exact (dict : Dictionary.t)
    (listing : list Dictionary.Element) (lfg_names : gset string) :
  lists dict Object.LogfileGroup listing →
  (ndb_get_logfile_group_names lfg_names dict).1
  = (true, lfg_names ∪ list_to_set (Dictionary.name <$> listing)).
Proof.
  intros Hok. unfold ndb_get_logfile_group_names.
  destruct (listing_success _ lfg_names
              (fun l => mret (true,
                 foldl (fun names elmt => names ∪ {[Dictionary.name elmt]})
                   lfg_names l))
              dict listing Hok) as (dict' & _ & ->).
  simpl. by rewrite foldl_names.
Qed.

Lemma ndb_get_logfile_group_names_exact_witness :
  (ndb_get_logfile_group_names {["lg_0"]}
     (Sample.connect (Sample.serving [] Sample.spec_undofiles []))).1
  = (true,
     {["lg_0"]}
     ∪ list_to_set
         (Dictionary.name <$>
          [ Sample.element "" "lg_a" Object.StateOnline;
            Sample.element "" "lg_b" Object.StateOnline ])).
Proof.
  exact (ndb_get_logfile_group_names_exact
           (Sample.connect (Sample.serving [] Sample.spec_undofiles []))
           [ Sample.element "" "lg_a" Object.StateOnline;
             Sample.element "" "lg_b" Object.StateOnline ]
           {["lg_0"]} eq_refl).
Defined.

(** X11. When the listing request succeeds, the tablespace query returns
    true and leaves in the set what it held before and the name of every
    listed tablespace, whatever its state. *)
Theorem ndb_get_tablespace_names_exact (dict : Dictionary.t)
    (listing : list Dictionary.Element) (tablespace_names : gset string) :
  lists dict Object.Tablespace listing →
  (ndb_get_tablespace_names tablespace_names dict).1
  = (true, tablespace_names ∪ list_to_set (Dictionary.name <$> listing)).
Proof.
  intros Hok. unfold ndb_get_tablespace_names.
  destruct (listing_success _ tablespace_names
              (fun l => mret (true,
                 foldl (fun names elmt => names ∪ {[Dictionary.name elmt]})
                   tablespace_names l))
              dict listing Hok) as (dict' & _ & ->).
  simpl. by rewrite foldl_names.
Qed.

Lemma ndb_get_tablespace_names_exact_witness :
  (ndb_get_tablespace_names ∅
     (Sample.connect (Sample.serving [] [] [(7, "ts_alpha")]))).1
  = (true,
     ∅ ∪ list_to_set
           (Dictionary.name <$> [Sample.element "" "ts_alpha" Object.StateOnline])).
Proof.
  exact (ndb_get_tablespace_names_exact
           (Sample.connect (Sample.serving [] [] [(7, "ts_alpha")]))
           [Sample.element "" "ts_alpha" Object.StateOnline] ∅ eq_refl).
Defined.

(** ** Listing queries: the requests they send *)

(** X12. Each of the four queries that collect into a set sends one request
    to the dictionary, the listing request, whether it succeeds or not: the
    handle afterwards carries the error of that request and nothing else has
    been asked. A failed listing is not tried again. *)
Theorem set_queries_send_one_request
    (is_temp is_blob_prefix is_index_stat : string → bool)
    (dict : Dictionary.t) (names : gset string) (schema_name : string) :
  (ndb_get_logfile_group_names names dict).2
  = after_listObjects dict Object.LogfileGroup
  ∧ (ndb_get_tablespace_names names dict).2
    = after_listObjects dict Object.Tablespace
  ∧ (ndb_get_table_names_in_schema is_temp is_blob_prefix is_index_stat
       schema_name names dict).2
    = after_listObjects dict Object.UserTable
  ∧ (ndb_get_database_names_in_dictionary is_temp is_blob_prefix names dict).2
    = after_listObjects dict Object.UserTable.
Proof.
  unfold ndb_get_logfile_group_names, ndb_get_tablespace_names,
    ndb_get_table_names_in_schema, ndb_get_database_names_in_dictionary.
  repeat split.
  - destruct (listing_cases Object.LogfileGroup names
                (fun l => mret (true,
                   foldl (fun names elmt => names ∪ {[Dictionary.name elmt]})
                     names l)) dict) as [[_ ->]|(l & _ & ->)]; done.
  - destruct (listing_cases Object.Tablespace names
                (fun l => mret (true,
                   foldl (fun names elmt => names ∪ {[Dictionary.name elmt]})
                     names l)) dict) as [[_ ->]|(l & _ & ->)]; done.
  - destruct (listing_cases Object.UserTable names
                (fun l => mret (true,
                   foldl (table_names_in_schema_step is_temp is_blob_prefix
                            is_index_stat schema_name) names l)) dict)
      as [[_ ->]|(l & _ & ->)]; done.
  - destruct (listing_cases Object.UserTable names
                (fun l => mret (true,
                   foldl (database_names_step is_temp is_blob_prefix)
                     names l)) dict) as [[_ ->]|(l & _ & ->)]; done.
Qed.

(** The undofile loop sends one [getUndofile] request per listed element,
    in the order of the listing, to the same service. *)
Lemma undofile_names_loop_requests (logfile_group_name : string)
    (elements : list Dictionary.Element) :
  ∀ (undofile_names : list string) (dict : Dictionary.t),
    Dictionary.service
      (undofile_names_loop logfile_group_name elements undofile_names dict).2
    = Dictionary.service dict
    ∧ Dictionary.requests
        (undofile_names_loop logfile_group_name elements undofile_names dict).2
      = Dictionary.requests dict
        ++ ((fun elmt => Dictionary.GetUndofile (-1) (Dictionary.name elmt))
              <$> elements).
Proof.
  induction elements as [|elmt elements IH]; intros undofile_names dict.
  - simpl. by rewrite app_nil_r.
  - cbn [undofile_names_loop].
    rewrite (bind_run _ _ _ _ _ (getUndofile_run _ _ dict)).
    destruct (IH (if bool_decide
                       (String.compare logfile_group_name
                          (Undofile.getLogfileGroup
                             (Dictionary.value
                                (Dictionary.on_getUndofile
                                   (Dictionary.service dict) (-1)
                                   (Dictionary.name elmt)))) = Eq)
                  then undofile_names ++ [Dictionary.name elmt]
                  else undofile_names)
                {| Dictionary.service := Dictionary.service dict;
                   Dictionary.m_error :=
                     Dictionary.error
                       (Dictionary.on_getUndofile (Dictionary.service dict)
                          (-1) (Dictionary.name elmt));
                   Dictionary.requests :=
                     Dictionary.requests dict
                     ++ [Dictionary.GetUndofile (-1) (Dictionary.name elmt)] |})
      as [-> ->].
    split; [done|]. cbn [Dictionary.requests].
    by rewrite fmap_cons, <- app_assoc.
Qed.

Lemma getDatafile_run (node : Z) (path : string) (dict : Dictionary.t) :
  Dictionary.getDatafile node path dict
  = (Dictionary.value
       (Dictionary.on_getDatafile (Dictionary.service dict) node path),
     {| Dictionary.service := Dictionary.service dict;
        Dictionary.m_error :=
          Dictionary.error
            (Dictionary.on_getDatafile (Dictionary.service dict) node path);
        Dictionary.requests :=
          Dictionary.requests dict ++ [Dictionary.GetDatafile node path] |}).
Proof. reflexivity. Qed.

Lemma datafile_names_loop_requests (tablespace_name : string)
    (elements : list Dictionary.Element) :
  ∀ (datafile_names : list string) (dict : Dictionary.t),
    Dictionary.service
      (datafile_names_loop tablespace_name elements datafile_names dict).2
    = Dictionary.service dict
    ∧ Dictionary.requests
        (datafile_names_loop tablespace_name elements datafile_names dict).2
      = Dictionary.requests dict
        ++ ((fun elmt => Dictionary.GetDatafile (-1) (Dictionary.name elmt))
              <$> elements).
Proof.
  induction elements as [|elmt elements IH]; intros datafile_names dict.
  - simpl. by rewrite app_nil_r.
  - cbn [datafile_names_loop].
    rewrite (bind_run _ _ _ _ _ (getDatafile_run _ _ dict)).
    destruct (IH (if bool_decide
                       (String.compare tablespace_name
                          (Datafile.getTablespace
                             (Dictionary.value
                                (Dictionary.on_getDatafile
                                   (Dictionary.service dict) (-1)
                                   (Dictionary.name elmt)))) = Eq)
                  then datafile_names ++ [Dictionary.name elmt]
                  else datafile_names)
                {| Dictionary.service := Dictionary.service dict;
                   Dictionary.m_error :=
                     Dictionary.error
                       (Dictionary.on_getDatafile (Dictionary.service dict)
                          (-1) (Dictionary.name elmt));
                   Dictionary.requests :=
                     Dictionary.requests dict
                     ++ [Dictionary.GetDatafile (-1) (Dictionary.name elmt)] |})
      as [-> ->].
    split; [done|]. cbn [Dictionary.requests].
    by rewrite fmap_cons, <- app_assoc.
Qed.

Lemma bind_snd {A B : Type} (m : Dictionary.M A) (f : A → B)
    (dict : Dictionary.t) :
  ((m ≫= fun a => mret (f a)) dict).2 = (m dict).2
  ∧ ((m ≫= fun a => mret (f a)) dict).1 = f (m dict).1.
Proof.
  unfold mbind, Dictionary_bind, Dictionary.bind. by destruct (m dict).
Qed.

(** X13. The undofile query sends the listing request and then, when it
    succeeded, one [getUndofile(-1, name)] request for every listed
    undofile, in the order of the listing and whether or not the file
    matches: a listing of [n] undofiles costs [n + 1] requests. When the
    listing request failed, it is the only request sent. *)
Theorem ndb_get_undofile_names_requests (dict : Dictionary.t)
    (logfile_group_name : string) (undofile_names : list string) :
  (listing_fails dict Object.Undofile →
   (ndb_get_undofile_names logfile_group_name undofile_names dict).2
   = after_listObjects dict Object.Undofile)
  ∧ (∀ listing,
       lists dict Object.Undofile listing →
       Dictionary.requests
         (ndb_get_undofile_names logfile_group_name undofile_names dict).2
       = Dictionary.requests dict
         ++ Dictionary.ListObjects Object.Undofile
            :: ((fun elmt => Dictionary.GetUndofile (-1) (Dictionary.name elmt))
                  <$> listing)).
Proof.
  unfold ndb_get_undofile_names.
  destruct (listing_cases Object.Undofile undofile_names
              (fun l => undofile_names_loop logfile_group_name l undofile_names
                        ≫= fun names => mret (true, names)) dict)
    as [[Hfail ->]|(l & Hok & ->)].
  - split; [done|]. intros listing Hl. unfold listing_fails, lists in *.
    rewrite Hl in Hfail. done.
  - split.
    + intros Hfail. unfold listing_fails, lists in *.
      rewrite Hok in Hfail. done.
    + intros listing Hl. unfold lists in *. rewrite Hok in Hl.
      injection Hl as <-.
      rewrite (proj1 (bind_snd _ (fun names => (true, names)) _)).
      rewrite (proj2 (undofile_names_loop_requests _ _ _ _)).
      cbn [after_listObjects Dictionary.requests].
      by rewrite <- app_assoc.
Qed.

Lemma ndb_get_undofile_names_requests_witness :
  (ndb_get_undofile_names "lg_a" [] (Sample.connect Sample.down)).2
  = after_listObjects (Sample.connect Sample.down) Object.Undofile
  ∧ Dictionary.requests
      (ndb_get_undofile_names "lg_a" []
         (Sample.connect (Sample.serving [] Sample.spec_undofiles []))).2
    = [ Dictionary.ListObjects Object.Undofile;
        Dictionary.GetUndofile (-1) "uf1";
        Dictionary.GetUndofile (-1) "uf2" ].
Proof.
  split.
  - apply (proj1 (ndb_get_undofile_names_requests
                    (Sample.connect Sample.down) "lg_a" [])).
    vm_compute; discriminate.
  - exact (proj2 (ndb_get_undofile_names_requests
                    (Sample.connect
                       (Sample.serving [] Sample.spec_undofiles []))
                    "lg_a" [])
             [ Sample.element "" "uf1" Object.StateOnline;
               Sample.element "" "uf2" Object.StateOnline ] eq_refl).
Defined.

(** X14. When the listing request succeeds, the datafile query returns true
    and appends, in the order of the listing, the name of every listed
    datafile whose tablespace, as the per-file request resolves it, equals
    the target character by character; it has sent the listing request and
    one [getDatafile(-1, name)] request for every listed datafile. When the
    listing request failed, it is the only request sent. *)
Theorem ndb_get_datafile_names_run (dict : Dictionary.t)
    (tablespace_name : string) (datafile_names : list string) :
  (listing_fails dict Object.Datafile →
   (ndb_get_datafile_names tablespace_name datafile_names dict).2
   = after_listObjects dict Object.Datafile)
  ∧ (∀ listing,
       lists dict Object.Datafile listing →
       (ndb_get_datafile_names tablespace_name datafile_names dict).1
       = (true,
          datafile_names
          ++ (Dictionary.name <$>
              filter (fun elmt =>
                        datafile_tablespace (Dictionary.service dict)
                          (Dictionary.name elmt) = tablespace_name)
                     listing))
       ∧ Dictionary.requests
           (ndb_get_datafile_names tablespace_name datafile_names dict).2
         = Dictionary.requests dict
           ++ Dictionary.ListObjects Object.Datafile
              :: ((fun elmt =>
                     Dictionary.GetDatafile (-1) (Dictionary.name elmt))
                    <$> listing)).
Proof.
  split.
  - intros Hfail. unfold ndb_get_datafile_names.
    destruct (listing_cases Object.Datafile datafile_names
                (fun l => datafile_names_loop tablespace_name l datafile_names
                          ≫= fun names => mret (true, names)) dict)
      as [[_ ->]|(l & Hok & _)]; [done|].
    unfold listing_fails, lists in *. rewrite Hok in Hfail. done.
  - intros listing Hl. split.
    + by apply ndb_get_datafile_names_exact.
    + unfold ndb_get_datafile_names.
      destruct (listing_cases Object.Datafile datafile_names
                  (fun l => datafile_names_loop tablespace_name l datafile_names
                            ≫= fun names => mret (true, names)) dict)
        as [[Hfail _]|(l & Hok & ->)].
      * unfold listing_fails, lists in *. rewrite Hl in Hfail. done.
      * unfold lists in *. rewrite Hok in Hl. injection Hl as <-.
        rewrite (proj1 (bind_snd _ (fun names => (true, names)) _)).
        rewrite (proj2 (datafile_names_loop_requests _ _ _ _)).
        cbn [after_listObjects Dictionary.requests].
        by rewrite <- app_assoc.
Qed.

Lemma ndb_get_datafile_names_run_witness :
  (ndb_get_datafile_names "ts_1" ["kept"] (Sample.connect Sample.down)).2
  = after_listObjects (Sample.connect Sample.down) Object.Datafile
  ∧ (ndb_get_datafile_names "ts_1" ["kept"]
       (Sample.connect (Sample.serving [] Sample.datafiles []))).1
    = (true, ["kept"; "df1"; "df3"])
  ∧ Dictionary.requests
      (ndb_get_datafile_names "ts_1" ["kept"]
         (Sample.connect (Sample.serving [] Sample.datafiles []))).2
    = [ Dictionary.ListObjects Object.Datafile;
        Dictionary.GetDatafile (-1) "df1";
        Dictionary.GetDatafile (-1) "df2";
        Dictionary.GetDatafile (-1) "df3" ].
Proof.
  split.
  - apply (proj1 (ndb_get_datafile_names_run
                    (Sample.connect Sample.down) "ts_1" ["kept"])).
    vm_compute; discriminate.
  - exact (proj2 (ndb_get_datafile_names_run
                    (Sample.connect (Sample.serving [] Sample.datafiles []))
                    "ts_1" ["kept"])
             ((fun f => Sample.element "" f.1 Object.StateOnline)
                <$> Sample.datafiles) eq_refl).
Defined.

(** ** Listing queries: what happens to the caller's collection *)

Lemma foldl_collect_keeps {A : Type} (step : gset string → A → gset string)
    (key : A → string) (P : A → Prop) :
  (∀ acc e x, x ∈ step acc e ↔ x ∈ acc ∨ (key e = x ∧ P e)) →
  ∀ (l : list A) (acc : gset string), acc ⊆ foldl step acc l.
Proof.
  intros Hstep l acc x Hx. apply (foldl_collect step key P Hstep). by left.
Qed.

Lemma vector_query_prefix (type : Object.Type_) (files : list string)
    (loop : list Dictionary.Element → list string → Dictionary.M (list string))
    (dict : Dictionary.t) :
  (∀ l d, files `prefix_of` (loop l files d).1) →
  files `prefix_of`
    ((Dictionary.listObjects type ≫= fun '(res, listing) =>
        if bool_decide (res ≠ 0) then mret (false, files)
        else loop listing files ≫= fun names => mret (true, names)) dict).1.2.
Proof.
  intros Hloop.
  destruct (listing_cases type files
              (fun l => loop l files ≫= fun names => mret (true, names)) dict)
    as [[_ ->]|(l & _ & ->)]; [done|].
  rewrite (proj2 (bind_snd _ (fun names => (true, names)) _)). apply Hloop.
Qed.

(** X15. No listing query takes anything out of the collection it is
    given, whether the listing request succeeds or fails: a set comes back
    with at least the elements it had, and a sequence comes back with its
    former content as a prefix, in the same order. *)
Theorem queries_keep_collection
    (is_temp is_blob_prefix is_index_stat : string → bool)
    (dict : Dictionary.t) (names : gset string) (files : list string)
    (schema_name logfile_group_name tablespace_name : string) :
  names ⊆ (ndb_get_logfile_group_names names dict).1.2
  ∧ names ⊆ (ndb_get_tablespace_names names dict).1.2
  ∧ names ⊆ (ndb_get_table_names_in_schema is_temp is_blob_prefix
               is_index_stat schema_name names dict).1.2
  ∧ names ⊆ (ndb_get_database_names_in_dictionary is_temp is_blob_prefix
               names dict).1.2
  ∧ files `prefix_of`
      (ndb_get_undofile_names logfile_group_name files dict).1.2
  ∧ files `prefix_of`
      (ndb_get_datafile_names tablespace_name files dict).1.2.
Proof.
  unfold ndb_get_logfile_group_names, ndb_get_tablespace_names,
    ndb_get_table_names_in_schema, ndb_get_database_names_in_dictionary.
  repeat split.
  - destruct (listing_cases Object.LogfileGroup names
                (fun l => mret (true,
                   foldl (fun names elmt => names ∪ {[Dictionary.name elmt]})
                     names l)) dict) as [[_ ->]|(l & _ & ->)]; [done|].
    simpl. rewrite foldl_names. apply union_subseteq_l.
  - destruct (listing_cases Object.Tablespace names
                (fun l => mret (true,
                   foldl (fun names elmt => names ∪ {[Dictionary.name elmt]})
                     names l)) dict) as [[_ ->]|(l & _ & ->)]; [done|].
    simpl. rewrite foldl_names. apply union_subseteq_l.
  - destruct (listing_cases Object.UserTable names
                (fun l => mret (true,
                   foldl (table_names_in_schema_step is_temp is_blob_prefix
                            is_index_stat schema_name) names l)) dict)
      as [[_ ->]|(l & _ & ->)]; [done|].
    simpl.
    apply (foldl_collect_keeps _ Dictionary.name _
             (table_names_in_schema_step_spec is_temp is_blob_prefix
                is_index_stat schema_name)).
  - destruct (listing_cases Object.UserTable names
                (fun l => mret (true,
                   foldl (database_names_step is_temp is_blob_prefix)
                     names l)) dict) as [[_ ->]|(l & _ & ->)]; [done|].
    simpl.
    apply (foldl_collect_keeps _ Dictionary.database _
             (database_names_step_spec is_temp is_blob_prefix)).
  - apply (vector_query_prefix Object.Undofile files
             (undofile_names_loop logfile_group_name)).
    intros l d. rewrite undofile_names_loop_spec. by eexists.
  - apply (vector_query_prefix Object.Datafile files
             (datafile_names_loop tablespace_name)).
    intros l d. rewrite datafile_names_loop_spec. by eexists.
Qed.

(** X16. A sequence query does not look at what the sequence holds: called
    again with its own result on a dictionary that gives the same answers,
    the undofile query appends the matching names a second time. *)
Theorem ndb_get_undofile_names_twice (dict dict2 : Dictionary.t)
    (listing : list Dictionary.Element) (logfile_group_name : string)
    (undofile_names once : list string) :
  lists dict Object.Undofile listing →
  Dictionary.service dict2 = Dictionary.service dict →
  (ndb_get_undofile_names logfile_group_name undofile_names dict).1
  = (true, once) →
  (ndb_get_undofile_names logfile_group_name once dict2).1
  = (true,
     once
     ++ (Dictionary.name <$>
         filter (fun elmt =>
                   undofile_group (Dictionary.service dict)
                     (Dictionary.name elmt) = logfile_group_name)
                listing))
  ∧ once
    = undofile_names
      ++ (Dictionary.name <$>
          filter (fun elmt =>
                    undofile_group (Dictionary.service dict)
                      (Dictionary.name elmt) = logfile_group_name)
                 listing).
Proof.
  intros Hok Hsvc Honce.
  assert (∀ d names,
            lists d Object.Undofile listing →
            (ndb_get_undofile_names logfile_group_name names d).1
            = (true,
               names
               ++ (Dictionary.name <$>
                   filter (fun elmt =>
                             undofile_group (Dictionary.service d)
                               (Dictionary.name elmt) = logfile_group_name)
                          listing))) as Hrun.
  { intros d names Hd. unfold ndb_get_undofile_names.
    destruct (listing_success _ names
                (fun l => undofile_names_loop logfile_group_name l names
                          ≫= fun names => mret (true, names))
                d listing Hd) as (d' & Hd' & ->).
    rewrite (proj2 (bind_snd _ (fun names => (true, names)) _)).
    by rewrite undofile_names_loop_spec, Hd'. }
  split.
  - rewrite Hrun by (unfold lists in *; by rewrite Hsvc).
    by rewrite Hsvc.
  - rewrite Hrun in Honce by done. by injection Honce as <-.
Qed.

Lemma ndb_get_undofile_names_twice_witness :
  (ndb_get_undofile_names "lg_a" ["uf1"]
     (Sample.connect (Sample.serving [] Sample.spec_undofiles []))).1
  = (true, ["uf1"; "uf1"])
  ∧ ["uf1"] = [] ++ ["uf1"].
Proof.
  exact (ndb_get_undofile_names_twice
           (Sample.connect (Sample.serving [] Sample.spec_undofiles []))
           (Sample.connect (Sample.serving [] Sample.spec_undofiles []))
           ((fun f => Sample.element "" f.1 Object.StateOnline)
              <$> Sample.spec_undofiles)
           "lg_a" [] ["uf1"] eq_refl eq_refl eq_refl).
Defined.

Lemma foldl_collect_again {A : Type} (step : gset string → A → gset string)
    (key : A → string) (P : A → Prop) :
  (∀ acc e x, x ∈ step acc e ↔ x ∈ acc ∨ (key e = x ∧ P e)) →
  ∀ (l : list A) (acc : gset string),
    foldl step (foldl step acc l) l = foldl step acc l.
Proof.
  intros Hstep l acc. apply set_eq. intros x.
  rewrite !(foldl_collect step key P Hstep). split.
  - intros [[?|?]|?]; auto.
  - intros [?|?]; auto.
Qed.

(** X17. A set query called again with its own result, on a dictionary
    that gives the same listing, adds nothing: the table names query and the
    database names query return the set they were given. *)
Theorem set_queries_twice
    (is_temp is_blob_prefix is_index_stat : string → bool)
    (dict dict2 : Dictionary.t) (listing : list Dictionary.Element)
    (schema_name : string) (names : gset string) :
  lists dict Object.UserTable listing →
  lists dict2 Object.UserTable listing →
  (ndb_get_table_names_in_schema is_temp is_blob_prefix is_index_stat
     schema_name
     (ndb_get_table_names_in_schema is_temp is_blob_prefix is_index_stat
        schema_name names dict).1.2 dict2).1
  = (ndb_get_table_names_in_schema is_temp is_blob_prefix is_index_stat
       schema_name names dict).1
  ∧ (ndb_get_database_names_in_dictionary is_temp is_blob_prefix
       (ndb_get_database_names_in_dictionary is_temp is_blob_prefix
          names dict).1.2 dict2).1
    = (ndb_get_database_names_in_dictionary is_temp is_blob_prefix
         names dict).1.
Proof.
  intros Hok Hok2.
  unfold ndb_get_table_names_in_schema, ndb_get_database_names_in_dictionary.
  split.
  - destruct (listing_success _ names
                (fun l => mret (true,
                   foldl (table_names_in_schema_step is_temp is_blob_prefix
                            is_index_stat schema_name) names l))
                dict listing Hok) as (d' & _ & ->).
    simpl.
    destruct (listing_success _
                (foldl (table_names_in_schema_step is_temp is_blob_prefix
                          is_index_stat schema_name) names listing)
                (fun l => mret (true,
                   foldl (table_names_in_schema_step is_temp is_blob_prefix
                            is_index_stat schema_name)
                     (foldl (table_names_in_schema_step is_temp is_blob_prefix
                               is_index_stat schema_name) names listing) l))
                dict2 listing Hok2) as (d2' & _ & ->).
    simpl. f_equal.
    apply (foldl_collect_again _ Dictionary.name _
             (table_names_in_schema_step_spec is_temp is_blob_prefix
                is_index_stat schema_name)).
  - destruct (listing_success _ names
                (fun l => mret (true,
                   foldl (database_names_step is_temp is_blob_prefix) names l))
                dict listing Hok) as (d' & _ & ->).
    simpl.
    destruct (listing_success _
                (foldl (database_names_step is_temp is_blob_prefix)
                   names listing)
                (fun l => mret (true,
                   foldl (database_names_step is_temp is_blob_prefix)
                     (foldl (database_names_step is_temp is_blob_prefix)
                        names listing) l))
                dict2 listing Hok2) as (d2' & _ & ->).
    simpl. f_equal.
    apply (foldl_collect_again _ Dictionary.database _
             (database_names_step_spec is_temp is_blob_prefix)).
Qed.

Lemma set_queries_twice_witness :
  (ndb_get_table_names_in_schema Sample.is_temp Sample.is_blob_prefix
     Sample.is_index_stat "db1"
     (ndb_get_table_names_in_schema Sample.is_temp Sample.is_blob_prefix
        Sample.is_index_stat "db1" ∅
        (Sample.connect (Sample.serving Sample.spec_tables [] []))).1.2
     (Sample.connect (Sample.serving Sample.spec_tables [] []))).1
  = (ndb_get_table_names_in_schema Sample.is_temp Sample.is_blob_prefix
       Sample.is_index_stat "db1" ∅
       (Sample.connect (Sample.serving Sample.spec_tables [] []))).1
  ∧ (ndb_get_database_names_in_dictionary Sample.is_temp
       Sample.is_blob_prefix
       (ndb_get_database_names_in_dictionary Sample.is_temp
          Sample.is_blob_prefix ∅
          (Sample.connect (Sample.serving Sample.spec_tables [] []))).1.2
       (Sample.connect (Sample.serving Sample.spec_tables [] []))).1
    = (ndb_get_database_names_in_dictionary Sample.is_temp
         Sample.is_blob_prefix ∅
         (Sample.connect (Sample.serving Sample.spec_tables [] []))).1.
Proof.
  exact (set_queries_twice Sample.is_temp Sample.is_blob_prefix
           Sample.is_index_stat
           (Sample.connect (Sample.serving Sample.spec_tables [] []))
           (Sample.connect (Sample.serving Sample.spec_tables [] []))
           Sample.spec_tables "db1" ∅ eq_refl eq_refl).
Defined.

(** X18. The two queries over the user tables agree in this way: when no
    listed table is in the obsolete backup state, every table name that the
    table names query adds for a schema has that schema among the results of
    the database names query on the same dictionary. *)
Theorem table_found_database_found
    (is_temp is_blob_prefix is_index_stat : string → bool)
    (dict : Dictionary.t) (listing : list Dictionary.Element)
    (schema_name : string) (table_names database_names : gset string)
    (x : string) :
  lists dict Object.UserTable listing →
  (∀ elmt, elmt ∈ listing →
     Dictionary.state elmt ≠ Object.ObsoleteStateBackup) →
  x ∈ (ndb_get_table_names_in_schema is_temp is_blob_prefix is_index_stat
         schema_name table_names dict).1.2 →
  x ∉ table_names →
  schema_name
  ∈ (ndb_get_database_names_in_dictionary is_temp is_blob_prefix
       database_names dict).1.2.
Proof.
  intros Hok Hstates.
  unfold ndb_get_table_names_in_schema, ndb_get_database_names_in_dictionary.
  destruct (listing_success _ table_names
              (fun l => mret (true,
                 foldl (table_names_in_schema_step is_temp is_blob_prefix
                          is_index_stat schema_name) table_names l))
              dict listing Hok) as (d' & _ & ->).
  destruct (listing_success _ database_names
              (fun l => mret (true,
                 foldl (database_names_step is_temp is_blob_prefix)
                   database_names l))
              dict listing Hok) as (d2' & _ & ->).
  simpl. intros Hx Hnew.
  apply (foldl_collect _ Dictionary.name _
           (table_names_in_schema_step_spec is_temp is_blob_prefix
              is_index_stat schema_name)) in Hx
    as [?|(e & He & _ & Hdb & Htemp & Hblob & _ & Hst)]; [done|].
  apply (foldl_collect _ Dictionary.database _
           (database_names_step_spec is_temp is_blob_prefix)).
  right. exists e. split; [done|]. split; [done|].
  split; [|done]. unfold online_or_building.
  destruct Hst as [?|[?|Hbackup]]; [by left|by right|].
  by destruct (Hstates e He).
Qed.

Lemma table_found_database_found_witness :
  "db1"
  ∈ (ndb_get_database_names_in_dictionary Sample.is_temp Sample.is_blob_prefix
       ∅ (Sample.connect (Sample.serving Sample.spec_tables [] []))).1.2.
Proof.
  apply (table_found_database_found Sample.is_temp Sample.is_blob_prefix
           Sample.is_index_stat
           (Sample.connect (Sample.serving Sample.spec_tables [] []))
           Sample.spec_tables "db1" ∅ ∅ "t1" eq_refl).
  - intros elmt Hin. unfold Sample.spec_tables in Hin.
    repeat (apply elem_of_cons in Hin as [->|Hin]; [discriminate|]).
    by apply elem_of_nil in Hin.
  - by vm_compute.
  - apply not_elem_of_empty.
Defined.
